(** * CEP -> weather pipeline (service-a / service-b)

    Shallow embedding of the two Go services of the repository:
    - the Lookup Orchestrator (service-b), in its two variants:
      [Services]/[Handlers] (service-b/internal/..., built from cmd/) and
      [MainB] (the monolithic service-b/main.go);
    - the Edge Validator (service-a), in its two variants:
      [HandlersA]/[Client] (service-a/internal/...) and [MainA] (service-a main.go).

    Go strings are byte strings: they are modelled as Rocq [string]s, whose
    characters are 8-bit [ascii] values (a literal such as "á" is its two
    UTF-8 bytes).  float64 is the kernel's binary64 [float]. *)

From Stdlib Require Import String Ascii List Bool ZArith NArith Lia Permutation.
From Stdlib Require Import Floats.
Import ListNotations.
Open Scope string_scope.

(* ------------------------------------------------------------------ *)
(** ** strings.Replace and removeAccents *)

Module Accents.

Fixpoint string_drop (n : nat) (s : string) : string :=
  match n, s with
  | O, _ => s
  | S n', String _ s' => string_drop n' s'
  | S _, EmptyString => EmptyString
  end.

(** Go's [strings.Replace(s, old, new, -1)] for a non-empty [old]: scan from
    the left, replace each non-overlapping occurrence of [old] by [new] and
    continue after it.  [fuel] bounds the scan; [strings_Replace] gives it
    the length of the input, which is enough since each step consumes at
    least one byte.  (An empty [old] never occurs: every key of the table
    below has two bytes.) *)
Fixpoint replace_go (fuel : nat) (s old new : string) : string :=
  match fuel with
  | O => s
  | S fuel' =>
      match s with
      | EmptyString => EmptyString
      | String c rest =>
          if String.prefix old s
          then new ++ replace_go fuel' (string_drop (String.length old) s) old new
          else String c (replace_go fuel' rest old new)
      end
  end.

Definition strings_Replace (s old new : string) : string :=
  replace_go (String.length s) s old new.

(** The [replacements] map literal of removeAccents, in source order. *)
Definition replacements : list (string * string) :=
  [ ("á", "a"); ("à", "a"); ("ã", "a"); ("â", "a"); ("ä", "a");
    ("é", "e"); ("è", "e"); ("ê", "e"); ("ë", "e");
    ("í", "i"); ("ì", "i"); ("î", "i"); ("ï", "i");
    ("ó", "o"); ("ò", "o"); ("õ", "o"); ("ô", "o"); ("ö", "o");
    ("ú", "u"); ("ù", "u"); ("û", "u"); ("ü", "u");
    ("ç", "c");
    ("Á", "A"); ("À", "A"); ("Ã", "A"); ("Â", "A"); ("Ä", "A");
    ("É", "E"); ("È", "E"); ("Ê", "E"); ("Ë", "E");
    ("Í", "I"); ("Ì", "I"); ("Î", "I"); ("Ï", "I");
    ("Ó", "O"); ("Ò", "O"); ("Õ", "O"); ("Ô", "O"); ("Ö", "O");
    ("Ú", "U"); ("Ù", "U"); ("Û", "U"); ("Ü", "U");
    ("Ç", "C") ].

(** [removeAccents] (service-b/main.go and services.removeAccents):
    [for from, to := range replacements { result = strings.Replace(result, from, to, -1) }].
    Go leaves the iteration order of a map unspecified (and randomises it):
    [order] is the sequence in which this [range] visits the entries, a
    permutation of [replacements]. *)
Definition removeAccents (order : list (string * string)) (texto : string) : string :=
  fold_left (fun result '(from, to) => strings_Replace result from to) order texto.

(** Reference reading: a left-to-right scan that replaces each two-byte
    sequence found in [tbl] by its value. *)
Fixpoint table_lookup (tbl : list (string * string)) (k : string) : option string :=
  match tbl with
  | [] => None
  | (a, b) :: t => if String.eqb a k then Some b else table_lookup t k
  end.

Fixpoint strip_scan (tbl : list (string * string)) (s : string) : string :=
  match s with
  | EmptyString => EmptyString
  | String c1 t =>
      match t with
      | EmptyString => s
      | String c2 rest =>
          match table_lookup tbl (String c1 (String c2 EmptyString)) with
          | Some v => v ++ strip_scan tbl rest
          | None => String c1 (strip_scan tbl t)
          end
      end
  end.

(** UTF-8 encoding of one code point (what Go stores for a rune), and of a
    sequence of code points. *)
Definition byte_of (z : Z) : ascii := ascii_of_N (Z.to_N z).

Definition utf8_rune (cp : Z) : string :=
  if (cp <? 128)%Z then String (byte_of cp) EmptyString
  else if (cp <? 2048)%Z then
    String (byte_of (192 + cp / 64)) (String (byte_of (128 + cp mod 64)) EmptyString)
  else if (cp <? 65536)%Z then
    String (byte_of (224 + cp / 4096))
      (String (byte_of (128 + (cp / 64) mod 64))
        (String (byte_of (128 + cp mod 64)) EmptyString))
  else
    String (byte_of (240 + cp / 262144))
      (String (byte_of (128 + (cp / 4096) mod 64))
        (String (byte_of (128 + (cp / 64) mod 64))
          (String (byte_of (128 + cp mod 64)) EmptyString))).

Fixpoint utf8_encode (cps : list Z) : string :=
  match cps with
  | [] => EmptyString
  | cp :: t => utf8_rune cp ++ utf8_encode t
  end.

(** Per-character reading of the substitution: a rune found in the table
    becomes its value, every other rune is kept. *)
Definition strip_char (cp : Z) : string :=
  match table_lookup replacements (utf8_rune cp) with
  | Some v => v
  | None => utf8_rune cp
  end.

Fixpoint strip_chars (cps : list Z) : string :=
  match cps with
  | [] => EmptyString
  | cp :: t => strip_char cp ++ strip_chars t
  end.

End Accents.

(* ------------------------------------------------------------------ *)
(** ** HTTP, JSON and effects *)

Module Http.

(** A Go [(T, error)] pair: [Ok] when the error is nil. *)
Inductive result (A : Type) : Type :=
  | Ok (a : A)
  | Err (e : string).
Arguments Ok {A} a.
Arguments Err {A} e.

Definition nl : string := String "010"%char EmptyString.

(** Decimal rendering of a non-negative integer (Go's [%d] on status codes). *)
Fixpoint show_nat_aux (fuel n : nat) (acc : string) : string :=
  match fuel with
  | O => acc
  | S f =>
      let acc' := String (ascii_of_nat (48 + n mod 10)) acc in
      if (n <? 10)%nat then acc' else show_nat_aux f (n / 10) acc'
  end.

Definition itoa (z : Z) : string := show_nat_aux (S (Z.to_nat z)) (Z.to_nat z) "".

(** models.WeatherResponse (service-a) and WeatherResponse (service-b/main.go):
    [{"city", "temp_C", "temp_F", "temp_K"}]. *)
Record WeatherResponse := {
  City : string;
  TempC : float;
  TempF : float;
  TempK : float
}.

(** A response body: plain text, or a [WeatherResponse] written with
    [json.NewEncoder(w).Encode]. *)
Inductive body :=
  | Text (s : string)
  | Json (w : WeatherResponse).

Record response := mkResponse { status : Z; resp_body : body }.

Definition StatusOK : Z := 200.
Definition StatusBadRequest : Z := 400.
Definition StatusNotFound : Z := 404.
Definition StatusMethodNotAllowed : Z := 405.
Definition StatusUnprocessableEntity : Z := 422.
Definition StatusInternalServerError : Z := 500.

(** [http.Error(w, msg, code)]: the message is written with a trailing newline. *)
Definition http_Error (msg : string) (code : Z) : response :=
  mkResponse code (Text (msg ++ nl)).

(** [w.WriteHeader(code); w.Write([]byte(msg))] *)
Definition write_text (code : Z) (msg : string) : response :=
  mkResponse code (Text msg).

(** A decoded JSON document. *)
#[warnings="-register-all"]
Inductive jvalue :=
  | JNull
  | JBool (b : bool)
  | JNum (x : float)
  | JStr (s : string)
  | JArr (l : list jvalue)
  | JObj (fields : list (string * jvalue)).

(** An incoming request body: reading it may fail; otherwise its bytes are
    one JSON document ([Some]) or not ([None], a syntax error). *)
Inductive req_body :=
  | BodyReadError
  | BodyBytes (doc : option jvalue).

Record Request := { Method : string; Body : req_body }.

(** encoding/json matches object keys to struct fields case-insensitively
    (exact for the field names used here, which are ASCII without k or s). *)
Definition lower (c : ascii) : ascii :=
  let n := nat_of_ascii c in
  if (65 <=? n)%nat && (n <=? 90)%nat then ascii_of_nat (n + 32) else c.

Fixpoint lower_string (s : string) : string :=
  match s with
  | EmptyString => EmptyString
  | String c t => String (lower c) (lower_string t)
  end.

Definition key_matches (k field : string) : bool := String.eqb (lower_string k) field.

(** [json.Unmarshal(body, &payload)] into [struct { CEP string `json:"cep"` }]:
    [null] leaves the zero value, a key of the wrong type is a type error
    reported after the whole object is read, unknown keys are ignored. *)
Definition decode_CEPRequest (v : jvalue) : result string :=
  match v with
  | JNull => Ok ""
  | JObj fs =>
      let '(cep, bad) :=
        fold_left (fun '(cep, bad) '(k, x) =>
          if key_matches k "cep" then
            match x with
            | JStr s => (s, bad)
            | JNull => (cep, bad)
            | _ => (cep, true)
            end
          else (cep, bad)) fs ("", false) in
      if bad then Err "json: cannot unmarshal into Go struct field .cep of type string"
      else Ok cep
  | _ => Err "json: cannot unmarshal into Go value of type struct"
  end.

(** Modelled from the spec: models.WeatherAPIResponse of service-b (the
    models package of service-b is not in the sources); its shape
    [{"current": {"temp_c": float64}}] is the one service-b/main.go declares
    and the spec describes ("a nested current-temperature-in-Celsius field"). *)
Definition decode_current (x : jvalue) (t : float) (bad : bool) : float * bool :=
  match x with
  | JNull => (t, bad)
  | JObj gs =>
      fold_left (fun '(t, bad) '(k, y) =>
        if key_matches k "temp_c" then
          match y with
          | JNum f => (f, bad)
          | JNull => (t, bad)
          | _ => (t, true)
          end
        else (t, bad)) gs (t, bad)
  | _ => (t, true)
  end.

Definition decode_WeatherAPIResponse (v : jvalue) : result float :=
  match v with
  | JNull => Ok 0%float
  | JObj fs =>
      let '(t, bad) :=
        fold_left (fun '(t, bad) '(k, x) =>
          if key_matches k "current" then decode_current x t bad else (t, bad))
          fs (0%float, false) in
      if bad then Err "json: cannot unmarshal into Go struct field" else Ok t
  | _ => Err "json: cannot unmarshal into Go value of type struct"
  end.

(** [regexp.MustCompile(`^\d{8}$`).MatchString(cep)]: RE2's [\d] is
    [[0-9]] and [$] (without the m flag) only matches at the end of the
    text, so the match holds exactly for eight ASCII digits. *)
Definition is_ascii_digit (c : ascii) : bool :=
  (48 <=? nat_of_ascii c)%nat && (nat_of_ascii c <=? 57)%nat.

Definition validCEP_MatchString (s : string) : bool :=
  (String.length s =? 8)%nat && forallb is_ascii_digit (list_ascii_of_string s).

(** [http.NewRequestWithContext(ctx, method, url, body)] fails when
    [url.Parse] does; the URLs built here can only fail on a control byte
    (the check url.Parse starts with). *)
Definition is_ctl (c : ascii) : bool :=
  (nat_of_ascii c <? 32)%nat || (nat_of_ascii c =? 127)%nat.

Definition NewRequest_ok (url : string) : bool :=
  negb (existsb is_ctl (list_ascii_of_string url)).

(** Observable effects of a handler: trace spans started, and outbound
    HTTP calls. *)
Inductive event :=
  | SpanStart (name : string)
  | HttpGet (url : string)
  | HttpPost (url : string) (cep : string).

(** Handlers run in a writer monad that records these events in order. *)
Definition M (A : Type) : Type := list event -> A * list event.
Definition ret {A} (a : A) : M A := fun tr => (a, tr).
Definition bind {A B} (m : M A) (k : A -> M B) : M B :=
  fun tr => let (a, tr') := m tr in k a tr'.
Definition emit (e : event) : M unit := fun tr => (tt, (tr ++ [e])%list).
Definition run {A} (m : M A) : A * list event := m [].

Notation "x <- m ;; k" := (bind m (fun x => k))
  (at level 61, m at next level, right associativity).

(** Outcome of an outbound HTTP call. *)
Inductive transport (B : Type) : Type :=
  | TransportError (msg : string)
  | Response (code : Z) (b : B).
Arguments TransportError {B} msg.
Arguments Response {B} code b.

(** The outside world of one request: the answers of the City Resolver
    (ViaCEP) and of the Temperature Provider (WeatherAPI) to a GET of a URL
    (the body decoded as one JSON document, [None] when it is not one or
    cannot be read), the answer of service-b to a POST of [{"cep": cep}]
    to a URL ([None] when reading the body fails), and the order in which
    Go's [range] visits the map of removeAccents. *)
Record World := {
  viacep : string -> transport (option jvalue);
  weatherapi : string -> transport (option jvalue);
  service_b : string -> string -> transport (option body);
  range_order : list (string * string)
}.

(** Environment variables ([os.Getenv] yields "" when unset). *)
Record Config := {
  TEST_MODE : string;
  SIMULATE_CEP_NOT_FOUND : string;
  WEATHER_API_KEY : string
}.

End Http.

(* ------------------------------------------------------------------ *)
(** ** Lookup Orchestrator, modular variant (service-b/internal) *)

Module Services.
Import Http Accents.

Definition viaCEPURL (cep : string) : string :=
  "https://viacep.com.br/ws/" ++ cep ++ "/json/".

Definition weatherAPIURL (key q : string) : string :=
  "http://api.weatherapi.com/v1/current.json?key=" ++ key ++ "&q=" ++ q ++ "&aqi=no".

Record WeatherService := { testMode : bool }.

(** [NewWeatherService]: TEST_MODE is read once, when the service is built. *)
Definition NewWeatherService (env : Config) : WeatherService :=
  {| testMode := String.eqb (TEST_MODE env) "true" |}.

(** Modelled from the spec: models.ViaCEPResponse of service-b (the models
    package of service-b is not in the sources).  GetCityByCEP uses a
    string field [Localidade] (compared with "") and a bool field [Erro]
    (an if condition); the spec describes "a locality field and an optional
    error flag", ViaCEP's [localidade] and [erro]. *)
Record ViaCEPResponse := { Localidade : string; Erro : bool }.

Definition decode_ViaCEPResponse (v : jvalue) : result ViaCEPResponse :=
  match v with
  | JNull => Ok {| Localidade := ""; Erro := false |}
  | JObj fs =>
      let '(loc, erro, bad) :=
        fold_left (fun '(loc, erro, bad) '(k, x) =>
          if key_matches k "localidade" then
            match x with
            | JStr s => (s, erro, bad)
            | JNull => (loc, erro, bad)
            | _ => (loc, erro, true)
            end
          else if key_matches k "erro" then
            match x with
            | JBool b => (loc, b, bad)
            | JNull => (loc, erro, bad)
            | _ => (loc, erro, true)
            end
          else (loc, erro, bad)) fs ("", false, false) in
      if bad then Err "json: cannot unmarshal into Go struct field"
      else Ok {| Localidade := loc; Erro := erro |}
  | _ => Err "json: cannot unmarshal into Go value of type models.ViaCEPResponse"
  end.

Section WithEnv.
Variable env : Config.
Variable world : World.

(** method [GetCityByCEP] of [*WeatherService] *)
Definition GetCityByCEP (s : WeatherService) (cep : string) : M (result string) :=
  _ <- emit (SpanStart "get-city-by-cep") ;;
  if String.eqb (SIMULATE_CEP_NOT_FOUND env) "true" then ret (Err "CEP not found") else
  let url := viaCEPURL cep in
  if negb (NewRequest_ok url) then ret (Err "net/url: invalid control character in URL") else
  _ <- emit (HttpGet url) ;;
  match viacep world url with
  | TransportError msg => ret (Err msg)
  | Response code b =>
      if negb (code =? StatusOK)%Z then ret (Err "CEP not found") else
      match b with
      | None => ret (Err "invalid character looking for beginning of value")
      | Some v =>
          match decode_ViaCEPResponse v with
          | Err e => ret (Err e)
          | Ok viaCEPResp =>
              if Erro viaCEPResp then ret (Err "CEP not found")
              else if String.eqb (Localidade viaCEPResp) "" then ret (Err "City not found")
              else ret (Ok (Localidade viaCEPResp))
          end
      end
  end.

(** method [GetTemperature] of [*WeatherService] *)
Definition GetTemperature (s : WeatherService) (cidade : string) : M (result float) :=
  _ <- emit (SpanStart "get-temperature") ;;
  if testMode s then ret (Ok 25%float) else
  let apiKey := WEATHER_API_KEY env in
  if String.eqb apiKey "" then ret (Err "WEATHER_API_KEY not set") else
  let encodedCidade := removeAccents (range_order world) cidade in
  let url := weatherAPIURL apiKey encodedCidade in
  if negb (NewRequest_ok url) then ret (Err "net/url: invalid control character in URL") else
  _ <- emit (HttpGet url) ;;
  match weatherapi world url with
  | TransportError msg => ret (Err msg)
  | Response code b =>
      if negb (code =? StatusOK)%Z
      then ret (Err ("Error getting weather data: status " ++ itoa code)) else
      match b with
      | None => ret (Err "invalid character looking for beginning of value")
      | Some v =>
          match decode_WeatherAPIResponse v with
          | Err e => ret (Err e)
          | Ok tempC => ret (Ok tempC)
          end
      end
  end.

End WithEnv.
End Services.

Module HandlersB.
Import Http Services.

Section WithEnv.
Variable env : Config.
Variable world : World.

(** [HandleWeatherRequest(weatherService)] *)
#[warnings="-inexact-float"]
Definition HandleWeatherRequest (weatherService : WeatherService) (r : Request)
    : M response :=
  _ <- emit (SpanStart "handle-weather-request") ;;
  if negb (String.eqb (Method r) "POST")
  then ret (http_Error "Method not allowed" StatusMethodNotAllowed) else
  match Body r with
  | BodyReadError => ret (http_Error "Error reading request body" StatusBadRequest)
  | BodyBytes None => ret (write_text StatusBadRequest "invalid request format")
  | BodyBytes (Some doc) =>
      match decode_CEPRequest doc with
      | Err _ => ret (write_text StatusBadRequest "invalid request format")
      | Ok cep =>
          if negb (validCEP_MatchString cep)
          then ret (write_text StatusUnprocessableEntity "invalid zipcode") else
          c <- GetCityByCEP env world weatherService cep ;;
          match c with
          | Err _ => ret (write_text StatusNotFound "can not find zipcode")
          | Ok cidade =>
              t <- GetTemperature env world weatherService cidade ;;
              match t with
              | Err _ => ret (http_Error "Error getting temperature" StatusInternalServerError)
              | Ok tempC =>
                  let tempF := (tempC * 1.8 + 32)%float in
                  let tempK := (tempC + 273)%float in
                  ret (mkResponse StatusOK
                         (Json {| City := cidade; TempC := tempC;
                                  TempF := tempF; TempK := tempK |}))
              end
          end
      end
  end.

End WithEnv.

(** service-b/cmd/main.go: the handler served on "/". *)
Definition serve (env : Config) (world : World) (r : Request) : response * list event :=
  run (HandleWeatherRequest env world (NewWeatherService env) r).

End HandlersB.

(* ------------------------------------------------------------------ *)
(** ** Lookup Orchestrator, monolithic variant (service-b/main.go) *)

Module MainB.
Import Http Accents.

Definition viaCEPURL (cep : string) : string :=
  "https://viacep.com.br/ws/" ++ cep ++ "/json/".

Definition weatherAPIURL (key q : string) : string :=
  "http://api.weatherapi.com/v1/current.json?key=" ++ key ++ "&q=" ++ q ++ "&aqi=no".

(** [type ViaCEPResponse struct { Cidade string `json:"localidade"` }] *)
Record ViaCEPResponse := { Cidade : string }.

Definition decode_ViaCEPResponse (v : jvalue) : result ViaCEPResponse :=
  match v with
  | JNull => Ok {| Cidade := "" |}
  | JObj fs =>
      let '(cidade, bad) :=
        fold_left (fun '(cidade, bad) '(k, x) =>
          if key_matches k "localidade" then
            match x with
            | JStr s => (s, bad)
            | JNull => (cidade, bad)
            | _ => (cidade, true)
            end
          else (cidade, bad)) fs ("", false) in
      if bad then Err "json: cannot unmarshal into Go struct field"
      else Ok {| Cidade := cidade |}
  | _ => Err "json: cannot unmarshal into Go value of type main.ViaCEPResponse"
  end.

Section WithEnv.
Variable env : Config.
Variable world : World.

(** The package variable [testMode], set by main() from TEST_MODE. *)
Definition testMode : bool := String.eqb (TEST_MODE env) "true".

(** [getCityByCEP] *)
Definition getCityByCEP (cep : string) : M (result string) :=
  _ <- emit (SpanStart "get-city-by-cep") ;;
  if String.eqb (SIMULATE_CEP_NOT_FOUND env) "true" then ret (Err "CEP not found") else
  let url := viaCEPURL cep in
  if negb (NewRequest_ok url) then ret (Err "net/url: invalid control character in URL") else
  _ <- emit (HttpGet url) ;;
  match viacep world url with
  | TransportError msg => ret (Err msg)
  | Response code b =>
      if negb (code =? StatusOK)%Z then ret (Err "CEP not found") else
      match b with
      | None => ret (Err "invalid character looking for beginning of value")
      | Some v =>
          match decode_ViaCEPResponse v with
          | Err e => ret (Err e)
          | Ok viaCEPResp =>
              if String.eqb (Cidade viaCEPResp) "" then ret (Err "CEP not found")
              else ret (Ok (Cidade viaCEPResp))
          end
      end
  end.

(** [getTemperature] *)
Definition getTemperature (cidade : string) : M (result float) :=
  _ <- emit (SpanStart "get-temperature") ;;
  if testMode then ret (Ok 25%float) else
  let apiKey := WEATHER_API_KEY env in
  if String.eqb apiKey "" then ret (Err "WEATHER_API_KEY not set") else
  let encodedCidade := removeAccents (range_order world) cidade in
  let url := weatherAPIURL apiKey encodedCidade in
  if negb (NewRequest_ok url) then ret (Err "net/url: invalid control character in URL") else
  _ <- emit (HttpGet url) ;;
  match weatherapi world url with
  | TransportError msg => ret (Err msg)
  | Response code b =>
      if negb (code =? StatusOK)%Z
      then ret (Err ("Error getting weather data: status " ++ itoa code)) else
      match b with
      | None => ret (Err "invalid character looking for beginning of value")
      | Some v =>
          match decode_WeatherAPIResponse v with
          | Err e => ret (Err e)
          | Ok tempC => ret (Ok tempC)
          end
      end
  end.

(** [handleWeatherRequest] *)
#[warnings="-inexact-float"]
Definition handleWeatherRequest (r : Request) : M response :=
  _ <- emit (SpanStart "handle-weather-request") ;;
  if negb (String.eqb (Method r) "POST")
  then ret (http_Error "Method not allowed" StatusMethodNotAllowed) else
  match Body r with
  | BodyReadError => ret (http_Error "Error reading request body" StatusBadRequest)
  | BodyBytes None => ret (write_text StatusBadRequest "invalid request format")
  | BodyBytes (Some doc) =>
      match decode_CEPRequest doc with
      | Err _ => ret (write_text StatusBadRequest "invalid request format")
      | Ok cep =>
          if negb (validCEP_MatchString cep)
          then ret (write_text StatusUnprocessableEntity "invalid zipcode") else
          c <- getCityByCEP cep ;;
          match c with
          | Err _ => ret (write_text StatusNotFound "can not find zipcode")
          | Ok cidade =>
              t <- getTemperature cidade ;;
              match t with
              | Err _ => ret (http_Error "Error getting temperature" StatusInternalServerError)
              | Ok tempC =>
                  let tempF := (tempC * 1.8 + 32)%float in
                  let tempK := (tempC + 273)%float in
                  ret (mkResponse StatusOK
                         (Json {| City := cidade; TempC := tempC;
                                  TempF := tempF; TempK := tempK |}))
              end
          end
      end
  end.

End WithEnv.

Definition serve (env : Config) (world : World) (r : Request) : response * list event :=
  run (handleWeatherRequest env world r).

End MainB.

(* ------------------------------------------------------------------ *)
(** ** Edge Validator, modular variant (service-a/internal, built from cmd/) *)

Module Client.
Import Http.

Record ServiceBClient := { baseURL : string }.

Definition NewServiceBClient (baseURL : string) : ServiceBClient :=
  {| baseURL := baseURL |}.

(** [json.Unmarshal(respBody, &weatherResponse)]: a body written by
    [json.NewEncoder(w).Encode(response)] decodes back to [response]; the
    plain-text bodies of the orchestrator ("invalid zipcode", ...) are not
    JSON. *)
Definition decode_WeatherResponse (b : body) : result WeatherResponse :=
  match b with
  | Json w => Ok w
  | Text _ => Err "invalid character looking for beginning of value"
  end.

Section WithWorld.
Variable world : World.

(** method [SendCEP] of [*ServiceBClient]: Go's result triple ([*WeatherResponse], [int], [error])
    is the pair of a [result] and the status code.  (The Go message of a
    non-200 status also carries the body text; it only reaches the log.) *)
Definition SendCEP (c : ServiceBClient) (cep : string) : M (result WeatherResponse * Z) :=
  _ <- emit (SpanStart "call-service-b") ;;
  if negb (NewRequest_ok (baseURL c))
  then ret (Err "error creating request: net/url: invalid control character in URL",
            StatusInternalServerError) else
  _ <- emit (HttpPost (baseURL c) cep) ;;
  match service_b world (baseURL c) cep with
  | TransportError msg => ret (Err ("error sending request: " ++ msg), StatusInternalServerError)
  | Response code None => ret (Err "error reading response: unexpected EOF", code)
  | Response code (Some respBody) =>
      if negb (code =? StatusOK)%Z
      then ret (Err ("service B returned status " ++ itoa code), code) else
      match decode_WeatherResponse respBody with
      | Err e => ret (Err ("error unmarshaling response: " ++ e), StatusInternalServerError)
      | Ok weatherResponse => ret (Ok weatherResponse, code)
      end
  end.

End WithWorld.
End Client.

Module HandlersA.
Import Http Client.

Section WithWorld.
Variable world : World.

(** [HandleCEPRequest(serviceBClient)] *)
Definition HandleCEPRequest (serviceBClient : ServiceBClient) (r : Request) : M response :=
  _ <- emit (SpanStart "handle-cep-request") ;;
  if negb (String.eqb (Method r) "POST")
  then ret (http_Error "Method not allowed" StatusMethodNotAllowed) else
  match Body r with
  | BodyReadError => ret (http_Error "Error reading request body" StatusBadRequest)
  | BodyBytes None => ret (http_Error "Invalid JSON format" StatusBadRequest)
  | BodyBytes (Some doc) =>
      match decode_CEPRequest doc with
      | Err _ => ret (http_Error "Invalid JSON format" StatusBadRequest)
      | Ok cep =>
          if negb (validCEP_MatchString cep)
          then ret (write_text StatusUnprocessableEntity "invalid zipcode") else
          res <- SendCEP world serviceBClient cep ;;
          let '(weatherResponse, statusCode) := res in
          match weatherResponse with
          | Err _ =>
              if (statusCode =? StatusNotFound)%Z
              then ret (write_text StatusNotFound "can not find zipcode")
              else if (statusCode =? StatusUnprocessableEntity)%Z
              then ret (write_text StatusUnprocessableEntity "invalid zipcode")
              else ret (http_Error "Error calling Service B" StatusInternalServerError)
          | Ok w => ret (mkResponse StatusOK (Json w))
          end
      end
  end.

End WithWorld.

(** service-a/cmd/main.go: SERVICE_B_URL, with its default. *)
Definition serviceBURLOf (SERVICE_B_URL : string) : string :=
  if String.eqb SERVICE_B_URL "" then "http://service-b:8082" else SERVICE_B_URL.

Definition serve (SERVICE_B_URL : string) (world : World) (r : Request)
    : response * list event :=
  run (HandleCEPRequest world (NewServiceBClient (serviceBURLOf SERVICE_B_URL)) r).

End HandlersA.

(* ------------------------------------------------------------------ *)
(** ** Edge Validator, monolithic variant (service-a main.go) *)

Module MainA.
Import Http.

Definition serviceBURL : string := "http://service-b:8082/".

Section WithWorld.
Variable world : World.

(** [sendRequestToServiceB]: the [*http.Response] is its status code and
    body (the body read happens in the caller). *)
Definition sendRequestToServiceB (cep : string) : M (result (Z * option body)) :=
  _ <- emit (SpanStart "call-service-b") ;;
  if negb (NewRequest_ok serviceBURL)
  then ret (Err "net/url: invalid control character in URL") else
  _ <- emit (HttpPost serviceBURL cep) ;;
  match service_b world serviceBURL cep with
  | TransportError msg => ret (Err msg)
  | Response code b => ret (Ok (code, b))
  end.

(** [handleRequest].  [json.Marshal(serviceBRequest)] cannot fail on a
    struct with one string field.  Once [w.WriteHeader(resp.StatusCode)] has
    run, the later [http.Error] of a failed body read keeps that status. *)
Definition handleRequest (r : Request) : M response :=
  _ <- emit (SpanStart "handle-cep-request") ;;
  if negb (String.eqb (Method r) "POST")
  then ret (http_Error "Method not allowed" StatusMethodNotAllowed) else
  match Body r with
  | BodyReadError => ret (http_Error "Error reading request body" StatusBadRequest)
  | BodyBytes None => ret (http_Error "Invalid JSON format" StatusBadRequest)
  | BodyBytes (Some doc) =>
      match decode_CEPRequest doc with
      | Err _ => ret (http_Error "Invalid JSON format" StatusBadRequest)
      | Ok cep =>
          if negb (validCEP_MatchString cep)
          then ret (write_text StatusUnprocessableEntity "invalid zipcode") else
          resp <- sendRequestToServiceB cep ;;
          match resp with
          | Err err =>
              ret (http_Error ("Error calling Service B: " ++ err) StatusInternalServerError)
          | Ok (code, None) =>
              ret (mkResponse code (Text ("Error reading response from Service B" ++ nl)))
          | Ok (code, Some responseBody) => ret (mkResponse code responseBody)
          end
      end
  end.

End WithWorld.

Definition serve (world : World) (r : Request) : response * list event :=
  run (handleRequest world r).

End MainA.

(* ------------------------------------------------------------------ *)
(** ** Sample inputs *)

Module Samples.
Import Http Accents.

Definition post (doc : jvalue) : Request :=
  {| Method := "POST"; Body := BodyBytes (Some doc) |}.

Definition cep_doc (cep : string) : jvalue := JObj [("cep", JStr cep)].

Definition env_test : Config :=
  {| TEST_MODE := "true"; SIMULATE_CEP_NOT_FOUND := ""; WEATHER_API_KEY := "" |}.

Definition env_live : Config :=
  {| TEST_MODE := ""; SIMULATE_CEP_NOT_FOUND := ""; WEATHER_API_KEY := "k" |}.

(** Outside test mode, with no WEATHER_API_KEY. *)
Definition env_nokey : Config :=
  {| TEST_MODE := ""; SIMULATE_CEP_NOT_FOUND := ""; WEATHER_API_KEY := "" |}.

Definition env_sim : Config :=
  {| TEST_MODE := ""; SIMULATE_CEP_NOT_FOUND := "true"; WEATHER_API_KEY := "k" |}.

(** A world whose resolver answers [resolver] for every URL and whose
    temperature provider reports [t] degrees Celsius. *)
Definition world_of (resolver : jvalue) (t : float) : World :=
  {| viacep := fun _ => Response 200%Z (Some resolver);
     weatherapi := fun _ => Response 200%Z (Some (JObj [("current", JObj [("temp_c", JNum t)])]));
     service_b := fun _ _ => TransportError "connection refused";
     range_order := replacements |}.

Definition linhares : jvalue := JObj [("localidade", JStr "Linhares")].

(** A resolver answer that sets ViaCEP's error flag next to a city name. *)
Definition linhares_erro : jvalue :=
  JObj [("localidade", JStr "Linhares"); ("erro", JBool true)].

Definition quote : string := String "034"%char EmptyString.

(** The message of Go's [*url.Error] for a POST whose host does not resolve. *)
Definition dial_error (url : string) : string :=
  "Post " ++ quote ++ url ++ quote ++ ": dial tcp: lookup service-b: no such host".

(** A world where the Orchestrator's host name does not resolve. *)
Definition world_b_down : World :=
  {| viacep := viacep (world_of linhares 0%float);
     weatherapi := weatherapi (world_of linhares 0%float);
     service_b := fun url _ => TransportError (dial_error url);
     range_order := replacements |}.

End Samples.

(* ------------------------------------------------------------------ *)
(** ** Deployment: the Edge Validator in front of the Orchestrator *)

Module Deployment.
Import Http.

(** The request the Edge Validator sends: [json.Marshal(ServiceBRequest{CEP:
    cep})] POSTed, as the Orchestrator decodes it. *)
Definition service_b_request (cep : string) : Request :=
  {| Method := "POST"; Body := BodyBytes (Some (JObj [("cep", JStr cep)])) |}.

(** docker-compose.yml: service-a reaches service-b over HTTP, and both
    talk to the same City Resolver and Temperature Provider.  The answer of
    [orch] (an Orchestrator's handler) to the POST becomes the HTTP response
    service-a reads; service-b's own events are not in service-a's log. *)
Definition connect (orch : Request -> response * list event) (w : World) : World :=
  {| viacep := viacep w;
     weatherapi := weatherapi w;
     service_b := fun _ cep =>
       let r := fst (orch (service_b_request cep)) in
       Response (status r) (Some (resp_body r));
     range_order := range_order w |}.

End Deployment.

(* ------------------------------------------------------------------ *)
(** ** Predicates used by the proofs *)

Module Predicates.
Import Http Accents.

Definition lead : ascii := "195"%char.

(** Shape of the entries of [replacements]: the key is a two-byte UTF-8
    sequence [0xC3 x] with [x] a continuation byte, the value one ASCII byte. *)
Definition wf_entry (kv : string * string) : Prop :=
  exists x a, fst kv = String lead (String x EmptyString) /\
    (128 <= N_of_ascii x)%N /\ x <> lead /\
    snd kv = String a EmptyString /\ (N_of_ascii a < 128)%N.

Definition wf_entryb (kv : string * string) : bool :=
  match kv with
  | (String l (String x EmptyString), String a EmptyString) =>
      Ascii.eqb l lead && (128 <=? N_of_ascii x)%N && negb (Ascii.eqb x lead)
      && (N_of_ascii a <? 128)%N
  | _ => false
  end.

(** [m] appends to the log it is given, independently of it. *)
Definition appends {A} (m : M A) : Prop :=
  forall tr, m tr = (fst (m []), (tr ++ snd (m []))%list).

(** The failures of Stage 2 listed by the spec: outside test mode, a
    missing WEATHER_API_KEY, a request that cannot be built or sent, a
    non-200 status, or a body that does not decode. *)
Definition temperature_lookup_fails (env : Config) (world : World) (city : string) : Prop :=
  TEST_MODE env <> "true" /\
  (WEATHER_API_KEY env = "" \/
   let url := Services.weatherAPIURL (WEATHER_API_KEY env)
                (removeAccents (range_order world) city) in
   NewRequest_ok url = false \/
   (exists msg, weatherapi world url = TransportError msg) \/
   (exists code b, weatherapi world url = Response code b /\ code <> StatusOK) \/
   weatherapi world url = Response StatusOK None \/
   (exists v e, weatherapi world url = Response StatusOK (Some v) /\
                decode_WeatherAPIResponse v = Err e)).

End Predicates.

(* ------------------------------------------------------------------ *)
(** ** Facts about removeAccents *)

Module AccentsFacts.
Import Accents Predicates.

Lemma wf_entryb_sound kv : wf_entryb kv = true -> wf_entry kv.
Proof.
  destruct kv as [k v].
  destruct k as [|l [|x [|? ?]]]; try discriminate.
  destruct v as [|a [|? ?]]; try discriminate.
  simpl. rewrite !andb_true_iff, negb_true_iff.
  intros [[[Hl Hx] Hxl] Ha].
  apply Ascii.eqb_eq in Hl; subst l.
  exists x, a; repeat split; auto.
  - apply N.leb_le; exact Hx.
  - intros E; subst x; rewrite Ascii.eqb_refl in Hxl; discriminate.
  - apply N.ltb_lt; exact Ha.
Qed.

Lemma replacements_wf : Forall wf_entry replacements.
Proof.
  apply Forall_forall; intros kv Hin; apply wf_entryb_sound.
  assert (H : forallb wf_entryb replacements = true) by (vm_compute; reflexivity).
  rewrite forallb_forall in H; auto.
Qed.

Lemma lookup_in T k v : table_lookup T k = Some v -> In (k, v) T.
Proof.
  induction T as [|[a b] T IH]; simpl; [discriminate|].
  destruct (String.eqb a k) eqn:E.
  - intros H; injection H as <-; apply String.eqb_eq in E; subst; left; reflexivity.
  - intros H; right; auto.
Qed.

Lemma lookup_app T1 T2 k :
  table_lookup (T1 ++ T2) k =
  match table_lookup T1 k with Some v => Some v | None => table_lookup T2 k end.
Proof.
  induction T1 as [|[a b] T1 IH]; simpl; [reflexivity|].
  destruct (String.eqb a k); auto.
Qed.

Section WellFormed.
Variable T : list (string * string).
Hypothesis HT : Forall wf_entry T.

Lemma lookup_wf k v :
  table_lookup T k = Some v ->
  exists x a, k = String lead (String x EmptyString) /\
    (128 <= N_of_ascii x)%N /\ x <> lead /\
    v = String a EmptyString /\ (N_of_ascii a < 128)%N.
Proof.
  intros H; apply lookup_in in H.
  rewrite Forall_forall in HT; apply HT in H; exact H.
Qed.

Lemma lookup_nonlead c1 c2 :
  c1 <> lead -> table_lookup T (String c1 (String c2 EmptyString)) = None.
Proof.
  intros Hc; destruct (table_lookup _ _) eqn:E; [|reflexivity].
  apply lookup_wf in E as (x & a & Hk & _).
  injection Hk as H1 H2; congruence.
Qed.

Lemma lookup_low c1 c2 :
  (N_of_ascii c2 < 128)%N -> table_lookup T (String c1 (String c2 EmptyString)) = None.
Proof.
  intros Hc; destruct (table_lookup _ _) eqn:E; [|reflexivity].
  apply lookup_wf in E as (x & a & Hk & Hx & _).
  injection Hk as H1 H2; subst; lia.
Qed.

Lemma lookup_lead_lead : table_lookup T (String lead (String lead EmptyString)) = None.
Proof.
  destruct (table_lookup _ _) eqn:E; [|reflexivity].
  apply lookup_wf in E as (x & a & Hk & _ & Hx & _).
  injection Hk as H1; congruence.
Qed.

Lemma lookup_not_two k :
  String.length k <> 2%nat -> table_lookup T k = None.
Proof.
  intros Hk; destruct (table_lookup _ _) eqn:E; [|reflexivity].
  apply lookup_wf in E as (x & a & -> & _); simpl in Hk; congruence.
Qed.

Lemma strip_scan_two c1 c2 r :
  strip_scan T (String c1 (String c2 r)) =
  match table_lookup T (String c1 (String c2 EmptyString)) with
  | Some v => v ++ strip_scan T r
  | None => String c1 (strip_scan T (String c2 r))
  end.
Proof. reflexivity. Qed.

Lemma strip_scan_nonlead c r :
  c <> lead -> strip_scan T (String c r) = String c (strip_scan T r).
Proof.
  intros Hc; destruct r as [|c2 r]; [reflexivity|].
  rewrite strip_scan_two, lookup_nonlead by exact Hc; reflexivity.
Qed.

Lemma low_nonlead a : (N_of_ascii a < 128)%N -> a <> lead.
Proof. intros Ha E; subst a; vm_compute in Ha; discriminate. Qed.

End WellFormed.

Lemma prefix_two l x c1 t :
  String.prefix (String l (String x EmptyString)) (String c1 t) =
  match t with
  | EmptyString => false
  | String c2 _ => String.eqb (String l (String x EmptyString)) (String c1 (String c2 EmptyString))
  end.
Proof.
  destruct t as [|c2 t]; cbn [String.prefix String.eqb];
    destruct (ascii_dec l c1) as [<-|Hn1].
  - reflexivity.
  - reflexivity.
  - rewrite Ascii.eqb_refl; cbn.
    destruct (ascii_dec x c2) as [<-|Hn2].
    + rewrite Ascii.eqb_refl; destruct t; reflexivity.
    + apply Ascii.eqb_neq in Hn2; rewrite Hn2; reflexivity.
  - apply Ascii.eqb_neq in Hn1; rewrite Hn1; reflexivity.
Qed.

(** One pass of [strings.Replace] with a well-formed entry is the scan over
    that single entry. *)
Lemma replace_go_single k v fuel s :
  wf_entry (k, v) -> (String.length s <= fuel)%nat ->
  replace_go fuel s k v = strip_scan [(k, v)] s.
Proof.
  intros (x & a & Hk & _ & _ & _ & _); simpl in Hk; subst k.
  revert s; induction fuel as [|fuel IH]; intros s Hlen.
  - destruct s; [reflexivity|simpl in Hlen; lia].
  - destruct s as [|c1 t]; [reflexivity|].
    cbn [replace_go]; rewrite prefix_two.
    destruct t as [|c2 rest].
    + destruct fuel; reflexivity.
    + simpl in Hlen.
      rewrite strip_scan_two; cbn [table_lookup].
      destruct (String.eqb _ _) eqn:E.
      * apply String.eqb_eq in E; injection E as <- <-.
        cbn [String.length string_drop]; f_equal; apply IH; lia.
      * f_equal; apply IH; simpl; lia.
Qed.

Lemma strings_Replace_single k v s :
  wf_entry (k, v) -> strings_Replace s k v = strip_scan [(k, v)] s.
Proof. intros H; apply replace_go_single; auto. Qed.

(** Two scans in a row are one scan over the concatenated tables: a
    replacement emits an ASCII byte, which neither starts nor ends a key. *)
Lemma strip_scan_compose T1 T2 s :
  Forall wf_entry T1 -> Forall wf_entry T2 ->
  strip_scan T2 (strip_scan T1 s) = strip_scan (T1 ++ T2) s.
Proof.
  intros H1 H2.
  remember (String.length s) as n eqn:Hn.
  revert s Hn; induction n as [n IH] using lt_wf_ind; intros s Hn.
  assert (IH' : forall s', (String.length s' < n)%nat ->
            strip_scan T2 (strip_scan T1 s') = strip_scan (T1 ++ T2) s')
    by (intros s' Hs'; exact (IH _ Hs' s' eq_refl)).
  clear IH.
  destruct s as [|c1 [|c2 rest]]; [reflexivity|reflexivity|].
  cbn [String.length] in Hn.
  rewrite (strip_scan_two T1), (strip_scan_two (T1 ++ T2)), lookup_app.
  destruct (table_lookup T1 (String c1 (String c2 EmptyString))) as [v|] eqn:E1.
  - apply (lookup_wf T1 H1) in E1 as (x & a & _ & _ & _ & -> & Ha).
    cbn [String.append].
    rewrite (strip_scan_nonlead T2 H2) by (apply low_nonlead; exact Ha).
    f_equal. apply IH'; lia.
  - destruct (ascii_dec c1 lead) as [->|Hc1].
    2:{ rewrite (strip_scan_nonlead T2 H2) by exact Hc1.
        rewrite (lookup_nonlead T2 H2) by exact Hc1.
        f_equal. apply IH'; cbn [String.length]; lia. }
    destruct rest as [|c3 rest'].
    + cbn [strip_scan].
      destruct (table_lookup T2 (String lead (String c2 EmptyString))); reflexivity.
    + cbn [String.length] in Hn.
      rewrite (strip_scan_two T1 c2 c3 rest').
      destruct (table_lookup T1 (String c2 (String c3 EmptyString))) as [v'|] eqn:E2.
      * pose proof E2 as E2'.
        apply (lookup_wf T1 H1) in E2' as (x & a & Hk & _ & _ & -> & Ha).
        injection Hk as -> ->.
        rewrite (lookup_lead_lead T2 H2).
        cbn [String.append].
        rewrite (strip_scan_two T2), (lookup_low T2 H2) by exact Ha.
        f_equal.
        rewrite <- (IH' (String lead (String x rest'))) by (cbn [String.length]; lia).
        rewrite (strip_scan_two T1), E2; reflexivity.
      * rewrite (strip_scan_two T2).
        destruct (table_lookup T2 (String lead (String c2 EmptyString))).
        -- f_equal; apply IH'; cbn [String.length]; lia.
        -- f_equal.
           rewrite <- (IH' (String c2 (String c3 rest'))) by (cbn [String.length]; lia).
           rewrite (strip_scan_two T1), E2; reflexivity.
Qed.

Lemma strip_scan_ext T T' s :
  (forall k, table_lookup T k = table_lookup T' k) -> strip_scan T s = strip_scan T' s.
Proof.
  intros HTT.
  remember (String.length s) as n eqn:Hn.
  revert s Hn; induction n as [n IH] using lt_wf_ind; intros s Hn.
  destruct s as [|c1 [|c2 rest]]; [reflexivity|reflexivity|].
  cbn [String.length] in Hn.
  rewrite !strip_scan_two, HTT.
  destruct (table_lookup T' _).
  - f_equal; apply (IH (String.length rest)); [lia|reflexivity].
  - f_equal; apply (IH (S (String.length rest))); [lia|reflexivity].
Qed.

Lemma strip_scan_idem T s :
  Forall wf_entry T -> strip_scan T (strip_scan T s) = strip_scan T s.
Proof.
  intros H. rewrite strip_scan_compose by exact H.
  apply strip_scan_ext; intros k; rewrite lookup_app.
  destruct (table_lookup T k); reflexivity.
Qed.

Lemma strip_scan_nil s : strip_scan [] s = s.
Proof.
  induction s as [|c t IH]; [reflexivity|].
  destruct t as [|c2 rest]; [reflexivity|].
  rewrite strip_scan_two; cbn [table_lookup]; rewrite IH; reflexivity.
Qed.

(** The fold of [strings.Replace] over any well-formed visiting order is
    the scan over that order. *)
Lemma removeAccents_scan order s :
  Forall wf_entry order -> removeAccents order s = strip_scan order s.
Proof.
  unfold removeAccents.
  revert s; induction order as [|[k v] order IH]; intros s H.
  - symmetry; apply strip_scan_nil.
  - inversion H as [|? ? Hkv Hrest]; subst.
    cbn [fold_left]. rewrite IH by exact Hrest.
    rewrite strings_Replace_single by exact Hkv.
    rewrite strip_scan_compose by (auto; constructor; auto).
    reflexivity.
Qed.

Lemma lookup_perm T1 T2 k :
  Permutation T1 T2 -> NoDup (map fst T1) -> table_lookup T1 k = table_lookup T2 k.
Proof.
  induction 1 as [|[a b] l l' _ IH|[a b] [c d] l|l l' l'' P1 IH1 P2 IH2];
    intros Hnd; cbn [map fst] in *.
  - reflexivity.
  - inversion Hnd; subst; cbn [table_lookup]; rewrite IH by assumption; reflexivity.
  - inversion Hnd as [|? ? Hni Hnd']; subst. cbn [table_lookup].
    destruct (String.eqb c k) eqn:Ec, (String.eqb a k) eqn:Ea; try reflexivity.
    apply String.eqb_eq in Ec, Ea; subst. exfalso; apply Hni; left; reflexivity.
  - rewrite IH1 by assumption. apply IH2.
    apply (Permutation_NoDup (Permutation_map fst P1)); assumption.
Qed.

Lemma replacements_nodup : NoDup (map fst replacements).
Proof.
  unfold replacements; cbn [map fst].
  repeat constructor; cbn [In]; intros Hin;
    repeat (destruct Hin as [Hin|Hin]; [discriminate Hin|]); exact Hin.
Qed.

Lemma removeAccents_any_order order s :
  Permutation order replacements ->
  removeAccents order s = strip_scan replacements s.
Proof.
  intros HP.
  assert (Hwf : Forall wf_entry order).
  { apply Forall_forall; intros kv Hin.
    pose proof replacements_wf as HR; rewrite Forall_forall in HR.
    apply HR, (Permutation_in kv HP), Hin. }
  rewrite removeAccents_scan by exact Hwf.
  apply strip_scan_ext; intros k; symmetry.
  apply lookup_perm; [apply Permutation_sym, HP|apply replacements_nodup].
Qed.

Lemma byte_of_nonlead z :
  (0 <= z < 256)%Z -> z <> 195%Z -> byte_of z <> lead.
Proof.
  intros Hz Hne E.
  apply (f_equal N_of_ascii) in E. unfold byte_of in E.
  rewrite N_ascii_embedding in E.
  - change (N_of_ascii lead) with 195%N in E.
    apply (f_equal Z.of_N) in E. rewrite Z2N.id in E by lia. cbn in E. lia.
  - apply N2Z.inj_lt. rewrite Z2N.id by lia. cbn. lia.
Qed.

Lemma strip_scan_rune cp r :
  (0 <= cp < 1114112)%Z ->
  strip_scan replacements (utf8_rune cp ++ r) =
  match table_lookup replacements (utf8_rune cp) with
  | Some v => v
  | None => utf8_rune cp
  end ++ strip_scan replacements r.
Proof.
  intros Hcp. pose proof replacements_wf as HT.
  unfold utf8_rune.
  destruct (cp <? 128)%Z eqn:E1; [|destruct (cp <? 2048)%Z eqn:E2;
    [|destruct (cp <? 65536)%Z eqn:E3]];
    rewrite ?Z.ltb_lt, ?Z.ltb_ge in *.
  - rewrite (lookup_not_two _ HT) by discriminate. cbn [String.append].
    rewrite (strip_scan_nonlead _ HT); [reflexivity|].
    apply byte_of_nonlead; lia.
  - cbn [String.append]. rewrite (strip_scan_two replacements).
    destruct (table_lookup replacements _); [reflexivity|].
    rewrite (strip_scan_nonlead _ HT); [reflexivity|].
    apply byte_of_nonlead; Z.to_euclidean_division_equations; lia.
  - rewrite (lookup_not_two _ HT) by discriminate. cbn [String.append].
    rewrite !(strip_scan_nonlead _ HT); [reflexivity| |  |];
      apply byte_of_nonlead; Z.to_euclidean_division_equations; lia.
  - rewrite (lookup_not_two _ HT) by discriminate. cbn [String.append].
    rewrite !(strip_scan_nonlead _ HT); [reflexivity| | | |];
      apply byte_of_nonlead; Z.to_euclidean_division_equations; lia.
Qed.

Lemma strip_scan_utf8 cps :
  Forall (fun cp => 0 <= cp < 1114112)%Z cps ->
  strip_scan replacements (utf8_encode cps) = strip_chars cps.
Proof.
  induction 1 as [|cp t Hcp _ IH]; [reflexivity|].
  cbn [utf8_encode strip_chars]. rewrite strip_scan_rune by exact Hcp.
  rewrite IH. reflexivity.
Qed.

End AccentsFacts.

(* ------------------------------------------------------------------ *)
(** ** The event log only grows *)

Module MonadFacts.
Import Http Predicates.

Lemma ret_appends {A} (a : A) : appends (ret a).
Proof. intros tr; cbn; rewrite app_nil_r; reflexivity. Qed.

Lemma emit_appends e : appends (emit e).
Proof. intros tr; reflexivity. Qed.

Lemma bind_appends {A B} (m : M A) (k : A -> M B) :
  appends m -> (forall a, appends (k a)) -> appends (bind m k).
Proof.
  intros Hm Hk tr; unfold bind.
  rewrite (Hm tr), (Hm []).
  cbn [fst snd]. rewrite (Hk _ (tr ++ _)%list), (Hk _ ([] ++ _)%list).
  cbn [fst snd app]. rewrite app_assoc; reflexivity.
Qed.

Lemma bind_appends_eq {A B} (m : M A) (k : A -> M B) tr :
  appends m -> bind m k tr = k (fst (m [])) (tr ++ snd (m []))%list.
Proof. intros Hm; unfold bind; rewrite (Hm tr); reflexivity. Qed.

Ltac appends_tac :=
  repeat match goal with
  | |- appends (bind _ _) => apply bind_appends; [|intros ?]
  | |- appends (ret _) => apply ret_appends
  | |- appends (emit _) => apply emit_appends
  | |- appends (if ?b then _ else _) => destruct b
  | |- appends (match ?x with _ => _ end) => destruct x
  | |- appends (let '(_, _) := ?x in _) => destruct x
  end.

Lemma GetCityByCEP_appends env world ws cep :
  appends (Services.GetCityByCEP env world ws cep).
Proof. unfold Services.GetCityByCEP; appends_tac. Qed.

Lemma GetTemperature_appends env world ws city :
  appends (Services.GetTemperature env world ws city).
Proof. unfold Services.GetTemperature; appends_tac. Qed.

Lemma getCityByCEP_appends env world cep : appends (MainB.getCityByCEP env world cep).
Proof. unfold MainB.getCityByCEP; appends_tac. Qed.

Lemma getTemperature_appends env world city : appends (MainB.getTemperature env world city).
Proof. unfold MainB.getTemperature; appends_tac. Qed.

Lemma SendCEP_appends world c cep : appends (Client.SendCEP world c cep).
Proof. unfold Client.SendCEP; appends_tac. Qed.

Lemma sendRequestToServiceB_appends world cep :
  appends (MainA.sendRequestToServiceB world cep).
Proof. unfold MainA.sendRequestToServiceB; appends_tac. Qed.

End MonadFacts.

(* ------------------------------------------------------------------ *)
(** ** Sample inputs *)

Module SampleRuns.
Import Http Accents Samples.

Example removeAccents_sao_paulo : removeAccents replacements "São Paulo" = "Sao Paulo".
Proof. vm_compute. reflexivity. Qed.

Example orchestrator_test_mode :
  fst (HandlersB.serve env_test (world_of linhares 3%float) (post (cep_doc "29902555"))) =
  mkResponse 200 (Json {| City := "Linhares"; TempC := 25; TempF := 77; TempK := 298 |}).
Proof. vm_compute. reflexivity. Qed.

Example orchestrator_live :
  HandlersB.serve env_live (world_of linhares 10%float) (post (cep_doc "29902555")) =
  (mkResponse 200 (Json {| City := "Linhares"; TempC := 10; TempF := 50; TempK := 283 |}),
   [SpanStart "handle-weather-request"; SpanStart "get-city-by-cep";
    HttpGet "https://viacep.com.br/ws/29902555/json/"; SpanStart "get-temperature";
    HttpGet "http://api.weatherapi.com/v1/current.json?key=k&q=Linhares&aqi=no"]).
Proof. vm_compute. reflexivity. Qed.

Example orchestrator_short_cep :
  fst (MainB.serve env_live (world_of linhares 10%float) (post (cep_doc "1234567"))) =
  write_text 422 "invalid zipcode".
Proof. vm_compute. reflexivity. Qed.

End SampleRuns.

(* ------------------------------------------------------------------ *)
(** ** Request validation *)

Module ValidationFacts.
Import Http Samples.

Ltac unfold_handler :=
  unfold run, bind, emit, ret, post; cbn [Method Body String.eqb Ascii.eqb Bool.eqb negb app].

(** C1: a body whose [cep] is a string that [^\d{8}$] does not match is
    answered 422 "invalid zipcode" by both Edge Validators and both
    Orchestrators; the only event is the handler's own span: no outbound
    call is made. *)
Theorem invalid_cep_rejected (env : Config) (world : World) (SERVICE_B_URL : string)
    (doc : jvalue) (cep : string) :
  decode_CEPRequest doc = Ok cep ->
  validCEP_MatchString cep = false ->
  HandlersA.serve SERVICE_B_URL world (post doc) =
    (write_text StatusUnprocessableEntity "invalid zipcode", [SpanStart "handle-cep-request"]) /\
  MainA.serve world (post doc) =
    (write_text StatusUnprocessableEntity "invalid zipcode", [SpanStart "handle-cep-request"]) /\
  HandlersB.serve env world (post doc) =
    (write_text StatusUnprocessableEntity "invalid zipcode", [SpanStart "handle-weather-request"]) /\
  MainB.serve env world (post doc) =
    (write_text StatusUnprocessableEntity "invalid zipcode", [SpanStart "handle-weather-request"]).
Proof.
  intros Hdec Hval; repeat split.
  - unfold HandlersA.serve, HandlersA.HandleCEPRequest; unfold_handler.
    rewrite Hdec, Hval; reflexivity.
  - unfold MainA.serve, MainA.handleRequest; unfold_handler.
    rewrite Hdec, Hval; reflexivity.
  - unfold HandlersB.serve, HandlersB.HandleWeatherRequest; unfold_handler.
    rewrite Hdec, Hval; reflexivity.
  - unfold MainB.serve, MainB.handleWeatherRequest; unfold_handler.
    rewrite Hdec, Hval; reflexivity.
Qed.

Lemma invalid_cep_rejected_witness :
  decode_CEPRequest (cep_doc "1234-567") = Ok "1234-567" /\
  validCEP_MatchString "1234-567" = false /\
  fst (MainB.serve env_test (world_of linhares 0%float) (post (cep_doc "1234-567"))) =
    write_text StatusUnprocessableEntity "invalid zipcode".
Proof.
  split; [reflexivity|split; [reflexivity|]].
  destruct (invalid_cep_rejected env_test (world_of linhares 0%float) ""
              (cep_doc "1234-567") "1234-567" ltac:(reflexivity) ltac:(reflexivity))
    as (_ & _ & _ & H).
  rewrite H; reflexivity.
Defined.

End ValidationFacts.

(* ------------------------------------------------------------------ *)
(** ** Method check *)

Module MethodFacts.
Import Http Samples.

(** C9: a request whose method is not POST gets 405 from the main handler
    of each service, whatever its body (even an unreadable one); the method
    is checked first, so nothing but the handler's span happens. *)
Theorem non_post_method_not_allowed (env : Config) (world : World)
    (SERVICE_B_URL meth : string) (b : req_body) :
  meth <> "POST" ->
  HandlersA.serve SERVICE_B_URL world {| Method := meth; Body := b |} =
    (http_Error "Method not allowed" StatusMethodNotAllowed, [SpanStart "handle-cep-request"]) /\
  MainA.serve world {| Method := meth; Body := b |} =
    (http_Error "Method not allowed" StatusMethodNotAllowed, [SpanStart "handle-cep-request"]) /\
  HandlersB.serve env world {| Method := meth; Body := b |} =
    (http_Error "Method not allowed" StatusMethodNotAllowed, [SpanStart "handle-weather-request"]) /\
  MainB.serve env world {| Method := meth; Body := b |} =
    (http_Error "Method not allowed" StatusMethodNotAllowed, [SpanStart "handle-weather-request"]).
Proof.
  intros Hm; apply String.eqb_neq in Hm.
  unfold HandlersA.serve, HandlersA.HandleCEPRequest, MainA.serve, MainA.handleRequest,
    HandlersB.serve, HandlersB.HandleWeatherRequest, MainB.serve, MainB.handleWeatherRequest,
    run, bind, emit, ret; cbn [Method app].
  rewrite Hm; repeat split.
Qed.

Lemma non_post_method_not_allowed_witness :
  "GET" <> "POST" /\
  fst (HandlersB.serve env_test (world_of linhares 0%float)
         {| Method := "GET"; Body := BodyReadError |}) =
    http_Error "Method not allowed" StatusMethodNotAllowed.
Proof.
  split; [discriminate|].
  destruct (non_post_method_not_allowed env_test (world_of linhares 0%float) "" "GET"
              BodyReadError ltac:(discriminate)) as (_ & _ & H & _).
  rewrite H; reflexivity.
Defined.

End MethodFacts.

(* ------------------------------------------------------------------ *)
(** ** Simulated not-found *)

Module SimulateFacts.
Import Http Samples.

(** C7: with SIMULATE_CEP_NOT_FOUND=true, a POST with a valid CEP gets 404
    "can not find zipcode" from both Orchestrators, for any temperature
    provider and any TEST_MODE: the log shows that neither the resolver nor
    GetTemperature (span "get-temperature") is reached. *)
Theorem simulated_cep_not_found (env : Config) (world : World) (doc : jvalue) (cep : string) :
  SIMULATE_CEP_NOT_FOUND env = "true" ->
  decode_CEPRequest doc = Ok cep ->
  validCEP_MatchString cep = true ->
  HandlersB.serve env world (post doc) =
    (write_text StatusNotFound "can not find zipcode",
     [SpanStart "handle-weather-request"; SpanStart "get-city-by-cep"]) /\
  MainB.serve env world (post doc) =
    (write_text StatusNotFound "can not find zipcode",
     [SpanStart "handle-weather-request"; SpanStart "get-city-by-cep"]).
Proof.
  intros Hsim Hdec Hval; split.
  - unfold HandlersB.serve, HandlersB.HandleWeatherRequest, Services.GetCityByCEP,
      run, bind, emit, ret, post; cbn [Method Body String.eqb Ascii.eqb Bool.eqb negb app].
    rewrite Hdec, Hval, Hsim; reflexivity.
  - unfold MainB.serve, MainB.handleWeatherRequest, MainB.getCityByCEP,
      run, bind, emit, ret, post; cbn [Method Body String.eqb Ascii.eqb Bool.eqb negb app].
    rewrite Hdec, Hval, Hsim; reflexivity.
Qed.

Lemma simulated_cep_not_found_witness :
  SIMULATE_CEP_NOT_FOUND env_sim = "true" /\
  decode_CEPRequest (cep_doc "29902555") = Ok "29902555" /\
  validCEP_MatchString "29902555" = true /\
  fst (HandlersB.serve env_sim (world_of linhares 0%float) (post (cep_doc "29902555"))) =
    write_text StatusNotFound "can not find zipcode".
Proof.
  split; [reflexivity|split; [reflexivity|split; [reflexivity|]]].
  destruct (simulated_cep_not_found env_sim (world_of linhares 0%float)
              (cep_doc "29902555") "29902555"
              ltac:(reflexivity) ltac:(reflexivity) ltac:(reflexivity)) as (H & _).
  rewrite H; reflexivity.
Defined.

End SimulateFacts.

(* ------------------------------------------------------------------ *)
(** ** Success responses of the Orchestrators *)

Module SuccessFacts.
Import Http Samples MonadFacts.

Ltac step_into_bind E :=
  match goal with
  | |- context [let (_, _) := ?m ?tr in _] =>
      let a := fresh "a" in let t := fresh "t" in
      destruct (m tr) as [a t] eqn:E
  end.

(** Every JSON response of the modular Orchestrator is a 200 built from a
    resolved city and a temperature reading. *)
#[warnings="-inexact-float"]
Lemma HandlersB_success env world r code w :
  fst (HandlersB.serve env world r) = mkResponse code (Json w) ->
  code = StatusOK /\
  exists cep,
    fst (run (Services.GetCityByCEP env world (Services.NewWeatherService env) cep)) =
      Ok (City w) /\
    fst (run (Services.GetTemperature env world (Services.NewWeatherService env) (City w))) =
      Ok (TempC w) /\
    TempF w = (TempC w * 1.8 + 32)%float /\ TempK w = (TempC w + 273)%float.
Proof.
  unfold HandlersB.serve, run, HandlersB.HandleWeatherRequest.
  cbv [bind emit ret].
  destruct (negb (String.eqb (Method r) "POST")); [discriminate|].
  destruct (Body r) as [|[doc|]]; [discriminate| |discriminate].
  destruct (decode_CEPRequest doc) as [cep|]; [|discriminate].
  destruct (negb (validCEP_MatchString cep)); [discriminate|].
  step_into_bind E1.
  rewrite GetCityByCEP_appends in E1; injection E1 as E1 _.
  destruct a as [cidade|]; [|discriminate].
  step_into_bind E2.
  rewrite GetTemperature_appends in E2; injection E2 as E2 _.
  destruct a as [tempC|]; [|discriminate].
  intros H; injection H as <- <-.
  split; [reflexivity|]. exists cep; cbn.
  rewrite <- E1, <- E2; repeat split.
Qed.

#[warnings="-inexact-float"]
Lemma MainB_success env world r code w :
  fst (MainB.serve env world r) = mkResponse code (Json w) ->
  code = StatusOK /\
  exists cep,
    fst (run (MainB.getCityByCEP env world cep)) = Ok (City w) /\
    fst (run (MainB.getTemperature env world (City w))) = Ok (TempC w) /\
    TempF w = (TempC w * 1.8 + 32)%float /\ TempK w = (TempC w + 273)%float.
Proof.
  unfold MainB.serve, run, MainB.handleWeatherRequest.
  cbv [bind emit ret].
  destruct (negb (String.eqb (Method r) "POST")); [discriminate|].
  destruct (Body r) as [|[doc|]]; [discriminate| |discriminate].
  destruct (decode_CEPRequest doc) as [cep|]; [|discriminate].
  destruct (negb (validCEP_MatchString cep)); [discriminate|].
  step_into_bind E1.
  rewrite getCityByCEP_appends in E1; injection E1 as E1 _.
  destruct a as [cidade|]; [|discriminate].
  step_into_bind E2.
  rewrite getTemperature_appends in E2; injection E2 as E2 _.
  destruct a as [tempC|]; [|discriminate].
  intros H; injection H as <- <-.
  split; [reflexivity|]. exists cep; cbn.
  rewrite <- E1, <- E2; repeat split.
Qed.

End SuccessFacts.

(* ------------------------------------------------------------------ *)
(** ** Unit conversion *)

Module ConversionFacts.
Import Http Samples SuccessFacts.

(** C4: every success response of either Orchestrator is a 200 whose
    [temp_F] is [temp_C * 1.8 + 32] and whose [temp_K] is [temp_C + 273]
    (float64 arithmetic); a reading of 0 gives 32 and 273, a reading of
    100 gives 212 and 373. *)
#[warnings="-inexact-float"]
Theorem success_temperature_conversion :
  (forall env world r code w,
     fst (HandlersB.serve env world r) = mkResponse code (Json w) ->
     code = StatusOK /\
     TempF w = (TempC w * 1.8 + 32)%float /\ TempK w = (TempC w + 273)%float) /\
  (forall env world r code w,
     fst (MainB.serve env world r) = mkResponse code (Json w) ->
     code = StatusOK /\
     TempF w = (TempC w * 1.8 + 32)%float /\ TempK w = (TempC w + 273)%float) /\
  fst (HandlersB.serve env_live (world_of linhares 0%float) (post (cep_doc "29902555"))) =
    mkResponse StatusOK (Json {| City := "Linhares"; TempC := 0; TempF := 32; TempK := 273 |}) /\
  fst (HandlersB.serve env_live (world_of linhares 100%float) (post (cep_doc "29902555"))) =
    mkResponse StatusOK (Json {| City := "Linhares"; TempC := 100; TempF := 212; TempK := 373 |}) /\
  fst (MainB.serve env_live (world_of linhares 0%float) (post (cep_doc "29902555"))) =
    mkResponse StatusOK (Json {| City := "Linhares"; TempC := 0; TempF := 32; TempK := 273 |}) /\
  fst (MainB.serve env_live (world_of linhares 100%float) (post (cep_doc "29902555"))) =
    mkResponse StatusOK (Json {| City := "Linhares"; TempC := 100; TempF := 212; TempK := 373 |}).
Proof.
  split; [|split]; [| |repeat split; vm_compute; reflexivity].
  - intros env world r code w H.
    destruct (HandlersB_success env world r code w H) as (Hc & cep & _ & _ & HF & HK).
    auto.
  - intros env world r code w H.
    destruct (MainB_success env world r code w H) as (Hc & cep & _ & _ & HF & HK).
    auto.
Qed.

End ConversionFacts.

(* ------------------------------------------------------------------ *)
(** ** Test mode *)

Module TestModeFacts.
Import Http Samples SuccessFacts.

(** C6: with TEST_MODE=true, GetTemperature (both variants) answers 25.0
    for every city, whatever WEATHER_API_KEY is, with no outbound call;
    hence every success response carries 25, 77 and 298. *)
Theorem test_mode_fixed_temperature (env : Config) (world : World) :
  TEST_MODE env = "true" ->
  (forall city,
     run (Services.GetTemperature env world (Services.NewWeatherService env) city) =
       (Ok 25%float, [SpanStart "get-temperature"])) /\
  (forall city,
     run (MainB.getTemperature env world city) = (Ok 25%float, [SpanStart "get-temperature"])) /\
  (forall r code w,
     fst (HandlersB.serve env world r) = mkResponse code (Json w) ->
     TempC w = 25%float /\ TempF w = 77%float /\ TempK w = 298%float) /\
  (forall r code w,
     fst (MainB.serve env world r) = mkResponse code (Json w) ->
     TempC w = 25%float /\ TempF w = 77%float /\ TempK w = 298%float).
Proof.
  intros Ht.
  assert (HS : forall city,
     run (Services.GetTemperature env world (Services.NewWeatherService env) city) =
       (Ok 25%float, [SpanStart "get-temperature"])).
  { intros city; unfold Services.GetTemperature, Services.NewWeatherService, run.
    cbv [bind emit ret]; cbn [Services.testMode]; rewrite Ht; reflexivity. }
  assert (HM : forall city,
     run (MainB.getTemperature env world city) = (Ok 25%float, [SpanStart "get-temperature"])).
  { intros city; unfold MainB.getTemperature, MainB.testMode, run.
    cbv [bind emit ret]; rewrite Ht; reflexivity. }
  split; [exact HS|split; [exact HM|split]].
  - intros r code w H.
    destruct (HandlersB_success env world r code w H) as (_ & cep & _ & HT & HF & HK).
    rewrite HS in HT; injection HT as HC.
    rewrite HF, HK, <- HC; repeat split.
  - intros r code w H.
    destruct (MainB_success env world r code w H) as (_ & cep & _ & HT & HF & HK).
    rewrite HM in HT; injection HT as HC.
    rewrite HF, HK, <- HC; repeat split.
Qed.

Lemma test_mode_fixed_temperature_witness :
  TEST_MODE env_test = "true" /\
  run (Services.GetTemperature env_test (world_of linhares 0%float)
         (Services.NewWeatherService env_test) "Linhares") =
    (Ok 25%float, [SpanStart "get-temperature"]).
Proof.
  split; [reflexivity|].
  exact (proj1 (test_mode_fixed_temperature env_test (world_of linhares 0%float)
                  ltac:(reflexivity)) "Linhares").
Defined.

End TestModeFacts.

(* ------------------------------------------------------------------ *)
(** ** Temperature lookup failures *)

Module Stage2Facts.
Import Http Accents Samples Predicates MonadFacts SuccessFacts.

Lemma GetTemperature_fails env world city :
  temperature_lookup_fails env world city ->
  exists e, fst (run (Services.GetTemperature env world (Services.NewWeatherService env) city)) =
            Err e.
Proof.
  intros [Ht Hf].
  unfold Services.GetTemperature, Services.NewWeatherService, run; cbv [bind emit ret].
  cbn [Services.testMode fst].
  destruct (String.eqb (TEST_MODE env) "true") eqn:Et;
    [apply String.eqb_eq in Et; contradiction|].
  destruct (String.eqb (WEATHER_API_KEY env) "") eqn:Ek; [eexists; reflexivity|].
  apply String.eqb_neq in Ek.
  destruct Hf as [Hk|Hf]; [contradiction|].
  set (url := Services.weatherAPIURL _ _) in *.
  destruct (NewRequest_ok url) eqn:En; [|eexists; reflexivity]. cbn [negb].
  destruct (weatherapi world url) as [msg|code b] eqn:Ew; [eexists; reflexivity|].
  destruct (code =? StatusOK)%Z eqn:Ec; cbn [negb]; [|eexists; reflexivity].
  destruct b as [v|]; [|apply Z.eqb_eq in Ec; subst code].
  - destruct (decode_WeatherAPIResponse v) as [t|e] eqn:Ed; [|eexists; reflexivity].
    exfalso.
    destruct Hf as [Hn|[[m Hm]|[(c & b' & Hc & Hne)|[Hnone|(v' & e' & Hv & Hd)]]]];
      try congruence;
      [ rewrite Hc in Ew; injection Ew as -> ->; apply Z.eqb_eq in Ec; contradiction ].
  - eexists; reflexivity.
Qed.

Lemma getTemperature_fails env world city :
  temperature_lookup_fails env world city ->
  exists e, fst (run (MainB.getTemperature env world city)) = Err e.
Proof.
  intros Hf.
  destruct (GetTemperature_fails env world city Hf) as [e He].
  exists e. rewrite <- He. reflexivity.
Qed.

(** C3: after a valid CEP and a resolved city, every Stage 2 failure is
    answered by the Orchestrators with http.Error "Error getting
    temperature" and status 500: neither 404 nor "can not find zipcode". *)
Theorem stage2_failure_internal_error (env : Config) (world : World)
    (doc : jvalue) (cep city : string) :
  decode_CEPRequest doc = Ok cep ->
  validCEP_MatchString cep = true ->
  temperature_lookup_fails env world city ->
  (fst (run (Services.GetCityByCEP env world (Services.NewWeatherService env) cep)) = Ok city ->
   fst (HandlersB.serve env world (post doc)) =
     http_Error "Error getting temperature" StatusInternalServerError) /\
  (fst (run (MainB.getCityByCEP env world cep)) = Ok city ->
   fst (MainB.serve env world (post doc)) =
     http_Error "Error getting temperature" StatusInternalServerError) /\
  status (http_Error "Error getting temperature" StatusInternalServerError) = 500%Z /\
  status (http_Error "Error getting temperature" StatusInternalServerError) <> StatusNotFound /\
  resp_body (http_Error "Error getting temperature" StatusInternalServerError)
    <> Text "can not find zipcode".
Proof.
  intros Hdec Hval Hf.
  split; [|split; [|split; [reflexivity|split; [discriminate|discriminate]]]].
  - intros Hc.
    destruct (GetTemperature_fails env world city Hf) as [e He].
    unfold HandlersB.serve, run, HandlersB.HandleWeatherRequest, post.
    cbv [bind emit ret]; cbn [Method Body String.eqb Ascii.eqb Bool.eqb negb app].
    rewrite Hdec, Hval; cbn [negb].
    step_into_bind E1.
    rewrite GetCityByCEP_appends in E1; injection E1 as E1 _.
    unfold run in Hc; rewrite Hc in E1; subst a.
    step_into_bind E2.
    rewrite GetTemperature_appends in E2; injection E2 as E2 _.
    unfold run in He; rewrite He in E2; subst a.
    reflexivity.
  - intros Hc.
    destruct (getTemperature_fails env world city Hf) as [e He].
    unfold MainB.serve, run, MainB.handleWeatherRequest, post.
    cbv [bind emit ret]; cbn [Method Body String.eqb Ascii.eqb Bool.eqb negb app].
    rewrite Hdec, Hval; cbn [negb].
    step_into_bind E1.
    rewrite getCityByCEP_appends in E1; injection E1 as E1 _.
    unfold run in Hc; rewrite Hc in E1; subst a.
    step_into_bind E2.
    rewrite getTemperature_appends in E2; injection E2 as E2 _.
    unfold run in He; rewrite He in E2; subst a.
    reflexivity.
Qed.

Lemma stage2_failure_internal_error_witness :
  decode_CEPRequest (cep_doc "29902555") = Ok "29902555" /\
  validCEP_MatchString "29902555" = true /\
  temperature_lookup_fails env_nokey (world_of linhares 0%float) "Linhares" /\
  fst (run (Services.GetCityByCEP env_nokey (world_of linhares 0%float)
              (Services.NewWeatherService env_nokey) "29902555")) = Ok "Linhares" /\
  fst (HandlersB.serve env_nokey (world_of linhares 0%float) (post (cep_doc "29902555"))) =
    http_Error "Error getting temperature" StatusInternalServerError.
Proof.
  assert (Hf : temperature_lookup_fails env_nokey (world_of linhares 0%float) "Linhares").
  { split; [discriminate|left; reflexivity]. }
  split; [reflexivity|split; [reflexivity|split; [exact Hf|split; [vm_compute; reflexivity|]]]].
  destruct (stage2_failure_internal_error env_nokey (world_of linhares 0%float)
              (cep_doc "29902555") "29902555" "Linhares"
              ltac:(reflexivity) ltac:(reflexivity) Hf) as (H & _).
  apply H; vm_compute; reflexivity.
Defined.

End Stage2Facts.

(* ------------------------------------------------------------------ *)
(** ** removeAccents: idempotent and per character *)

Module AccentsClaim.
Import Accents AccentsFacts.

(** C5: for every range order of the substitution map (Go leaves it
    unspecified), removeAccents is a total function that is idempotent, even
    across two different orders; on the UTF-8 encoding of any sequence of
    code points it maps each character to its table value or keeps it; and
    "São Paulo" becomes "Sao Paulo". *)
Theorem removeAccents_idempotent_total (o1 o2 : list (string * string)) :
  Permutation o1 replacements ->
  Permutation o2 replacements ->
  (forall s, removeAccents o2 (removeAccents o1 s) = removeAccents o1 s) /\
  (forall cps, Forall (fun cp => 0 <= cp < 1114112)%Z cps ->
     removeAccents o1 (utf8_encode cps) = strip_chars cps) /\
  removeAccents o1 "São Paulo" = "Sao Paulo".
Proof.
  intros P1 P2.
  split; [|split].
  - intros s. rewrite !removeAccents_any_order by assumption.
    apply strip_scan_idem, replacements_wf.
  - intros cps Hcps. rewrite removeAccents_any_order by exact P1.
    apply strip_scan_utf8, Hcps.
  - rewrite removeAccents_any_order by exact P1. vm_compute. reflexivity.
Qed.

Lemma removeAccents_idempotent_total_witness :
  Permutation (rev replacements) replacements /\
  removeAccents (rev replacements) "São Paulo" = "Sao Paulo".
Proof.
  assert (HP : Permutation (rev replacements) replacements).
  { apply Permutation_sym, Permutation_rev. }
  split; [exact HP|].
  exact (proj2 (proj2 (removeAccents_idempotent_total (rev replacements) replacements
                         HP (Permutation_refl _)))).
Defined.

End AccentsClaim.

(* ------------------------------------------------------------------ *)
(** ** City resolution: the resolver's error flag *)

Module ResolverFlagFacts.
Import Http Samples MonadFacts SuccessFacts.

(** In the modular Orchestrator every failed city resolution, whatever its
    cause, becomes 404 "can not find zipcode". *)
Lemma HandlersB_stage1_failure env world doc cep e :
  decode_CEPRequest doc = Ok cep ->
  validCEP_MatchString cep = true ->
  fst (run (Services.GetCityByCEP env world (Services.NewWeatherService env) cep)) = Err e ->
  fst (HandlersB.serve env world (post doc)) = write_text StatusNotFound "can not find zipcode".
Proof.
  intros Hdec Hval Hc.
  unfold HandlersB.serve, run, HandlersB.HandleWeatherRequest, post.
  cbv [bind emit ret]; cbn [Method Body String.eqb Ascii.eqb Bool.eqb negb app].
  rewrite Hdec, Hval; cbn [negb].
  step_into_bind E1.
  rewrite GetCityByCEP_appends in E1; injection E1 as E1 _.
  unfold run in Hc; rewrite Hc in E1; subst a.
  reflexivity.
Qed.

(** In the modular Orchestrator a resolver answer with [erro] set is a
    failed resolution, whatever its [localidade]. *)
Lemma GetCityByCEP_erro env world cep loc :
  SIMULATE_CEP_NOT_FOUND env <> "true" ->
  NewRequest_ok (Services.viaCEPURL cep) = true ->
  viacep world (Services.viaCEPURL cep) =
    Response StatusOK (Some (JObj [("localidade", JStr loc); ("erro", JBool true)])) ->
  exists e,
    fst (run (Services.GetCityByCEP env world (Services.NewWeatherService env) cep)) = Err e.
Proof.
  intros Hs Hn Hv.
  unfold Services.GetCityByCEP, run; cbv [bind emit ret].
  destruct (String.eqb (SIMULATE_CEP_NOT_FOUND env) "true") eqn:E;
    [apply String.eqb_eq in E; contradiction|].
  rewrite Hn, Hv. eexists; reflexivity.
Qed.

(** C2: the monolithic Orchestrator (service-b/main.go) has no error-flag
    check: the resolver answer {"localidade":"Linhares","erro":true} for a
    valid CEP gets 200 with the city and its temperature, where the modular
    Orchestrator answers 404 "can not find zipcode". *)
Theorem monolithic_ignores_erro_flag :
  fst (MainB.serve env_test (world_of linhares_erro 0%float) (post (cep_doc "29902555"))) =
    mkResponse StatusOK
      (Json {| City := "Linhares"; TempC := 25; TempF := 77; TempK := 298 |}) /\
  fst (HandlersB.serve env_test (world_of linhares_erro 0%float) (post (cep_doc "29902555"))) =
    write_text StatusNotFound "can not find zipcode".
Proof. split; vm_compute; reflexivity. Qed.

(** C10: the two Orchestrators differ at the HTTP interface: on the same
    request, configuration and resolver and provider answers (a resolver
    answer with [erro] set next to a non-empty [localidade]), the monolithic
    one answers 200 with a JSON body and the modular one 404. *)
Theorem orchestrators_disagree_on_erro_flag :
  HandlersB.serve env_live (world_of linhares_erro 0%float) (post (cep_doc "29902555")) =
    (write_text StatusNotFound "can not find zipcode",
     [SpanStart "handle-weather-request"; SpanStart "get-city-by-cep";
      HttpGet "https://viacep.com.br/ws/29902555/json/"]) /\
  MainB.serve env_live (world_of linhares_erro 0%float) (post (cep_doc "29902555")) =
    (mkResponse StatusOK
       (Json {| City := "Linhares"; TempC := 0; TempF := 32; TempK := 273 |}),
     [SpanStart "handle-weather-request"; SpanStart "get-city-by-cep";
      HttpGet "https://viacep.com.br/ws/29902555/json/"; SpanStart "get-temperature";
      HttpGet "http://api.weatherapi.com/v1/current.json?key=k&q=Linhares&aqi=no"]) /\
  status (fst (HandlersB.serve env_live (world_of linhares_erro 0%float)
                 (post (cep_doc "29902555")))) <>
  status (fst (MainB.serve env_live (world_of linhares_erro 0%float)
                 (post (cep_doc "29902555")))).
Proof. split; [|split]; vm_compute; [reflexivity|reflexivity|discriminate]. Qed.

End ResolverFlagFacts.

(* ------------------------------------------------------------------ *)
(** ** Edge Validator: failures of the Orchestrator call *)

Module EdgeErrorFacts.
Import Http Client Samples MonadFacts SuccessFacts.

(** In the modular Edge Validator every failed call whose status is neither
    404 nor 422 (a transport failure gets 500) becomes http.Error "Error
    calling Service B" with 500: the cause is only logged. *)
Lemma HandleCEPRequest_generic_error world c doc cep e code :
  decode_CEPRequest doc = Ok cep ->
  validCEP_MatchString cep = true ->
  fst (run (SendCEP world c cep)) = (Err e, code) ->
  code <> StatusNotFound -> code <> StatusUnprocessableEntity ->
  fst (run (HandlersA.HandleCEPRequest world c (post doc))) =
    http_Error "Error calling Service B" StatusInternalServerError.
Proof.
  intros Hdec Hval Hs H404 H422.
  unfold run, HandlersA.HandleCEPRequest, post.
  cbv [bind emit ret]; cbn [Method Body String.eqb Ascii.eqb Bool.eqb negb app].
  rewrite Hdec, Hval; cbn [negb].
  step_into_bind E1.
  rewrite SendCEP_appends in E1; injection E1 as E1 _.
  unfold run in Hs; rewrite Hs in E1; subst a.
  cbv beta iota.
  rewrite (proj2 (Z.eqb_neq _ _) H404), (proj2 (Z.eqb_neq _ _) H422).
  reflexivity.
Qed.

Lemma SendCEP_transport_error world c cep msg :
  NewRequest_ok (baseURL c) = true ->
  service_b world (baseURL c) cep = TransportError msg ->
  fst (run (SendCEP world c cep)) =
    (Err ("error sending request: " ++ msg), StatusInternalServerError).
Proof.
  intros Hn Hb. unfold SendCEP, run; cbv [bind emit ret].
  rewrite Hn, Hb; reflexivity.
Qed.

(** C8: when the Orchestrator cannot be reached, the monolithic Edge
    Validator (unnamed/part_000) answers 500 with the Go transport error
    text in its body, here the failed DNS lookup of service-b; the modular
    Edge Validator answers the generic "Error calling Service B". *)
Theorem edge_leaks_transport_error :
  MainA.serve world_b_down (post (cep_doc "29902555")) =
    (http_Error ("Error calling Service B: " ++ dial_error "http://service-b:8082/")
       StatusInternalServerError,
     [SpanStart "handle-cep-request"; SpanStart "call-service-b";
      HttpPost "http://service-b:8082/" "29902555"]) /\
  resp_body (fst (MainA.serve world_b_down (post (cep_doc "29902555")))) =
    Text ("Error calling Service B: Post " ++ quote ++ "http://service-b:8082/" ++ quote ++
          ": dial tcp: lookup service-b: no such host" ++ nl) /\
  fst (HandlersA.serve "" world_b_down (post (cep_doc "29902555"))) =
    http_Error "Error calling Service B" StatusInternalServerError.
Proof. split; [|split]; vm_compute; reflexivity. Qed.

End EdgeErrorFacts.

(* ================================================================== *)
(** * Further properties of the code *)

(* ------------------------------------------------------------------ *)
(** ** removeAccents on ASCII text, lengths and control bytes *)

Module AccentsExtra.
Import Http Accents Predicates AccentsFacts.

Lemma ctl_app s1 s2 :
  existsb is_ctl (list_ascii_of_string (s1 ++ s2)) =
  existsb is_ctl (list_ascii_of_string s1) || existsb is_ctl (list_ascii_of_string s2).
Proof.
  induction s1 as [|c s1 IH]; [reflexivity|].
  cbn [append list_ascii_of_string existsb]; rewrite IH, orb_assoc; reflexivity.
Qed.

Lemma strip_scan_ascii T s :
  Forall wf_entry T ->
  Forall (fun c => (N_of_ascii c < 128)%N) (list_ascii_of_string s) ->
  strip_scan T s = s.
Proof.
  intros HT; induction s as [|c r IH]; intros H; [reflexivity|].
  inversion H as [|? ? Hc Hr]; subst.
  rewrite (strip_scan_nonlead T HT c r (low_nonlead c Hc)), IH by exact Hr.
  reflexivity.
Qed.




(** removeAccents leaves a string of ASCII bytes unchanged, whatever order
    Go's range visits the substitution map in: city names without accents
    are sent to the Temperature Provider as they are. *)
Theorem removeAccents_ascii_identity (order : list (string * string)) (s : string) :
  Permutation order replacements ->
  Forall (fun c => (N_of_ascii c < 128)%N) (list_ascii_of_string s) ->
  removeAccents order s = s.
Proof.
  intros HP Hs. rewrite removeAccents_any_order by exact HP.
  apply strip_scan_ascii; [exact replacements_wf|exact Hs].
Qed.

Lemma removeAccents_ascii_identity_witness :
  Permutation (rev replacements) replacements /\
  Forall (fun c => (N_of_ascii c < 128)%N) (list_ascii_of_string "Linhares") /\
  removeAccents (rev replacements) "Linhares" = "Linhares".
Proof.
  assert (HP : Permutation (rev replacements) replacements)
    by (apply Permutation_sym, Permutation_rev).
  assert (Hs : Forall (fun c => (N_of_ascii c < 128)%N) (list_ascii_of_string "Linhares"))
    by (repeat constructor; vm_compute; reflexivity).
  split; [exact HP|split; [exact Hs|]].
  exact (removeAccents_ascii_identity _ _ HP Hs).
Defined.



End AccentsExtra.

(* ------------------------------------------------------------------ *)
(** ** The two lookups: requests made and results *)

Module LookupExtra.
Import Http Accents Predicates AccentsFacts AccentsExtra.

Ltac close_all :=
  repeat match goal with
  | |- context [match ?x with _ => _ end] => destruct x
  | |- context [if ?b then _ else _] => destruct b
  end; reflexivity.

Lemma digit_not_ctl c : is_ascii_digit c = true -> is_ctl c = false.
Proof.
  unfold is_ascii_digit, is_ctl; intros H.
  apply andb_true_iff in H as [H1 H2]; apply Nat.leb_le in H1; apply Nat.leb_le in H2.
  apply orb_false_iff; split; [apply Nat.ltb_ge|apply Nat.eqb_neq]; lia.
Qed.

Lemma valid_cep_no_ctl cep :
  validCEP_MatchString cep = true -> existsb is_ctl (list_ascii_of_string cep) = false.
Proof.
  unfold validCEP_MatchString; intros H; apply andb_true_iff in H as [_ H].
  induction (list_ascii_of_string cep) as [|c l IH]; [reflexivity|].
  cbn [forallb existsb] in *; apply andb_true_iff in H as [Hc Hl].
  rewrite digit_not_ctl by exact Hc; apply IH, Hl.
Qed.

Lemma viaCEPURL_ok cep :
  validCEP_MatchString cep = true -> NewRequest_ok (Services.viaCEPURL cep) = true.
Proof.
  intros H; unfold NewRequest_ok, Services.viaCEPURL.
  rewrite !ctl_app, (valid_cep_no_ctl cep H); reflexivity.
Qed.


(** For an eight-digit CEP (and no simulated not-found), city resolution
    in both Orchestrators always builds its request and makes exactly one
    outbound call: a GET of https://viacep.com.br/ws/<cep>/json/, whatever
    the City Resolver answers. *)
Theorem city_lookup_single_get (env : Config) (world : World)
    (ws : Services.WeatherService) (cep : string) :
  SIMULATE_CEP_NOT_FOUND env <> "true" ->
  validCEP_MatchString cep = true ->
  snd (run (Services.GetCityByCEP env world ws cep)) =
    [SpanStart "get-city-by-cep"; HttpGet ("https://viacep.com.br/ws/" ++ cep ++ "/json/")] /\
  snd (run (MainB.getCityByCEP env world cep)) =
    [SpanStart "get-city-by-cep"; HttpGet ("https://viacep.com.br/ws/" ++ cep ++ "/json/")].
Proof.
  intros Hs Hv. apply String.eqb_neq in Hs.
  pose proof (viaCEPURL_ok cep Hv) as Hn.
  split.
  - unfold Services.GetCityByCEP, run; cbv [bind emit ret].
    rewrite Hs, Hn; cbn [negb]. close_all.
  - unfold MainB.getCityByCEP, run; cbv [bind emit ret].
    change (MainB.viaCEPURL cep) with (Services.viaCEPURL cep).
    rewrite Hs, Hn; cbn [negb]. close_all.
Qed.

Lemma city_lookup_single_get_witness :
  SIMULATE_CEP_NOT_FOUND Samples.env_live <> "true" /\
  validCEP_MatchString "29902555" = true /\
  snd (run (Services.GetCityByCEP Samples.env_live (Samples.world_of Samples.linhares 0%float)
              (Services.NewWeatherService Samples.env_live) "29902555")) =
    [SpanStart "get-city-by-cep"; HttpGet ("https://viacep.com.br/ws/" ++ "29902555" ++ "/json/")].
Proof.
  split; [discriminate|split; [reflexivity|]].
  exact (proj1 (city_lookup_single_get Samples.env_live (Samples.world_of Samples.linhares 0%float)
                  (Services.NewWeatherService Samples.env_live) "29902555"
                  ltac:(discriminate) ltac:(reflexivity))).
Defined.






End LookupExtra.

(* ------------------------------------------------------------------ *)
(** ** Edge Validator: the call to the Orchestrator and its answer *)

Module EdgeExtra.
Import Http Accents Client Samples.

Ltac reduce_edge Hdec Hval :=
  cbv [bind emit ret run post]; cbn [Method Body String.eqb Ascii.eqb Bool.eqb negb app];
  rewrite Hdec, Hval; cbn [negb].





(** The monolithic Edge Validator passes on the Orchestrator's status and
    body as they are, whatever the status; when the body cannot be read it
    keeps the status already written and only appends the error text. *)
Theorem monolithic_edge_relays (world : World) (doc : jvalue) (cep : string) :
  decode_CEPRequest doc = Ok cep ->
  validCEP_MatchString cep = true ->
  (forall code b, service_b world MainA.serviceBURL cep = Response code (Some b) ->
     MainA.serve world (post doc) =
       (mkResponse code b,
        [SpanStart "handle-cep-request"; SpanStart "call-service-b";
         HttpPost "http://service-b:8082/" cep])) /\
  (forall code, service_b world MainA.serviceBURL cep = Response code None ->
     fst (MainA.serve world (post doc)) =
       mkResponse code (Text ("Error reading response from Service B" ++ nl))).
Proof.
  intros Hdec Hval.
  unfold MainA.serve, MainA.handleRequest, MainA.sendRequestToServiceB.
  reduce_edge Hdec Hval.
  split.
  - intros code b Hb; rewrite Hb; reflexivity.
  - intros code Hb; rewrite Hb; reflexivity.
Qed.

Lemma monolithic_edge_relays_witness :
  decode_CEPRequest (cep_doc "29902555") = Ok "29902555" /\
  validCEP_MatchString "29902555" = true /\
  fst (MainA.serve
         {| viacep := viacep world_b_down; weatherapi := weatherapi world_b_down;
            service_b := fun _ _ => Response 503%Z (Some (Text "busy"));
            range_order := replacements |}
         (post (cep_doc "29902555"))) = mkResponse 503 (Text "busy").
Proof.
  split; [reflexivity|split; [reflexivity|]].
  destruct (monolithic_edge_relays
              {| viacep := viacep world_b_down; weatherapi := weatherapi world_b_down;
                 service_b := fun _ _ => Response 503%Z (Some (Text "busy"));
                 range_order := replacements |}
              (cep_doc "29902555") "29902555" ltac:(reflexivity) ltac:(reflexivity)) as [H _].
  rewrite (H 503%Z (Text "busy") eq_refl); reflexivity.
Defined.

End EdgeExtra.

(* ------------------------------------------------------------------ *)
(** ** Handlers: statuses, malformed bodies and outbound calls *)

Module HandlerExtra.
Import Http Accents Samples Deployment Predicates AccentsFacts MonadFacts SuccessFacts.

Ltac split_all :=
  repeat match goal with
  | |- context [match ?x with _ => _ end] => destruct x
  | |- context [if ?b then _ else _] => destruct b
  end.

Ltac open_handlers :=
  unfold HandlersA.serve, HandlersA.HandleCEPRequest, MainA.serve, MainA.handleRequest,
    HandlersB.serve, HandlersB.HandleWeatherRequest, MainB.serve, MainB.handleWeatherRequest,
    run; cbv [bind emit ret]; cbn [Method Body String.eqb Ascii.eqb Bool.eqb negb app].

(** The modular Edge Validator and both Orchestrators answer only with
    the statuses 200, 400, 404, 405, 422 and 500, whatever the request
    and whatever the services behind them answer. *)
Theorem handler_status_range (env : Config) (world : World) (SERVICE_B_URL : string)
    (r : Request) :
  In (status (fst (HandlersA.serve SERVICE_B_URL world r))) [200; 400; 404; 405; 422; 500]%Z /\
  In (status (fst (HandlersB.serve env world r))) [200; 400; 404; 405; 422; 500]%Z /\
  In (status (fst (MainB.serve env world r))) [200; 400; 404; 405; 422; 500]%Z.
Proof.
  unfold HandlersA.serve, HandlersA.HandleCEPRequest, HandlersB.serve,
    HandlersB.HandleWeatherRequest, MainB.serve, MainB.handleWeatherRequest, run.
  cbv [bind emit ret].
  repeat split; split_all;
    cbn [fst status http_Error write_text In];
    unfold StatusOK, StatusBadRequest, StatusNotFound, StatusMethodNotAllowed,
      StatusUnprocessableEntity, StatusInternalServerError; lia.
Qed.

(** A POST whose body cannot be read, is not JSON, or holds a [cep] that is
    not a string is answered 400 by both Edge Validators and both
    Orchestrators, with no outbound call. *)
Theorem malformed_body_bad_request (env : Config) (world : World) (SERVICE_B_URL : string)
    (b : req_body) :
  b = BodyReadError \/ b = BodyBytes None \/
  (exists doc e, b = BodyBytes (Some doc) /\ decode_CEPRequest doc = Err e) ->
  status (fst (HandlersA.serve SERVICE_B_URL world {| Method := "POST"; Body := b |})) = 400%Z /\
  snd (HandlersA.serve SERVICE_B_URL world {| Method := "POST"; Body := b |}) =
    [SpanStart "handle-cep-request"] /\
  status (fst (MainA.serve world {| Method := "POST"; Body := b |})) = 400%Z /\
  snd (MainA.serve world {| Method := "POST"; Body := b |}) = [SpanStart "handle-cep-request"] /\
  status (fst (HandlersB.serve env world {| Method := "POST"; Body := b |})) = 400%Z /\
  snd (HandlersB.serve env world {| Method := "POST"; Body := b |}) =
    [SpanStart "handle-weather-request"] /\
  status (fst (MainB.serve env world {| Method := "POST"; Body := b |})) = 400%Z /\
  snd (MainB.serve env world {| Method := "POST"; Body := b |}) =
    [SpanStart "handle-weather-request"].
Proof.
  intros [->|[->|(doc & e & -> & He)]]; open_handlers; try rewrite He; repeat split.
Qed.

Lemma malformed_body_bad_request_witness :
  (BodyBytes (Some (JObj [("cep", JNum 29902555%float)])) = BodyReadError \/
   BodyBytes (Some (JObj [("cep", JNum 29902555%float)])) = BodyBytes None \/
   (exists doc e, BodyBytes (Some (JObj [("cep", JNum 29902555%float)])) = BodyBytes (Some doc) /\
                  decode_CEPRequest doc = Err e)) /\
  status (fst (MainB.serve env_test (world_of linhares 0%float)
     {| Method := "POST"; Body := BodyBytes (Some (JObj [("cep", JNum 29902555%float)])) |})) =
  400%Z.
Proof.
  assert (H : BodyBytes (Some (JObj [("cep", JNum 29902555%float)])) = BodyReadError \/
   BodyBytes (Some (JObj [("cep", JNum 29902555%float)])) = BodyBytes None \/
   (exists doc e, BodyBytes (Some (JObj [("cep", JNum 29902555%float)])) = BodyBytes (Some doc) /\
                  decode_CEPRequest doc = Err e)).
  { right; right; eexists; eexists; split; [reflexivity|vm_compute; reflexivity]. }
  split; [exact H|].
  destruct (malformed_body_bad_request env_test (world_of linhares 0%float) ""
              (BodyBytes (Some (JObj [("cep", JNum 29902555%float)]))) H)
    as (_ & _ & _ & _ & _ & _ & H7 & _).
  exact H7.
Defined.

Lemma decode_no_cep fs :
  Forall (fun kv => key_matches (fst kv) "cep" = false \/ snd kv = JNull) fs ->
  decode_CEPRequest (JObj fs) = Ok "".
Proof.
  intros H. unfold decode_CEPRequest.
  enough (E : fold_left (fun '(cep, bad) '(k, x) =>
            if key_matches k "cep" then
              match x with
              | JStr s => (s, bad)
              | JNull => (cep, bad)
              | _ => (cep, true)
              end
            else (cep, bad)) fs ("", false) = ("", false)) by (rewrite E; reflexivity).
  induction H as [|[k x] fs Hkx _ IH]; [reflexivity|].
  cbn [fold_left fst snd] in *.
  destruct Hkx as [Hk| ->].
  - rewrite Hk; exact IH.
  - destruct (key_matches k "cep"); exact IH.
Qed.

(** A POST whose JSON body is [null], or an object with no [cep] key (in
    any letter case) or a [null] one, gives the empty CEP: both Edge
    Validators and both Orchestrators answer 422 "invalid zipcode" (not
    400), with no outbound call. *)
Theorem missing_cep_unprocessable (env : Config) (world : World) (SERVICE_B_URL : string)
    (doc : jvalue) :
  doc = JNull \/
  (exists fs, doc = JObj fs /\
     Forall (fun kv => key_matches (fst kv) "cep" = false \/ snd kv = JNull) fs) ->
  HandlersA.serve SERVICE_B_URL world (post doc) =
    (write_text StatusUnprocessableEntity "invalid zipcode", [SpanStart "handle-cep-request"]) /\
  MainA.serve world (post doc) =
    (write_text StatusUnprocessableEntity "invalid zipcode", [SpanStart "handle-cep-request"]) /\
  HandlersB.serve env world (post doc) =
    (write_text StatusUnprocessableEntity "invalid zipcode", [SpanStart "handle-weather-request"]) /\
  MainB.serve env world (post doc) =
    (write_text StatusUnprocessableEntity "invalid zipcode", [SpanStart "handle-weather-request"]).
Proof.
  intros Hd.
  assert (Hdec : decode_CEPRequest doc = Ok "").
  { destruct Hd as [->|(fs & -> & Hfs)]; [reflexivity|apply decode_no_cep, Hfs]. }
  unfold post; open_handlers; rewrite Hdec; repeat split.
Qed.

Lemma missing_cep_unprocessable_witness :
  (JObj [("zip", JStr "29902555")] = JNull \/
   (exists fs, JObj [("zip", JStr "29902555")] = JObj fs /\
      Forall (fun kv => key_matches (fst kv) "cep" = false \/ snd kv = JNull) fs)) /\
  fst (HandlersB.serve env_test (world_of linhares 0%float) (post (JObj [("zip", JStr "29902555")])))
    = write_text StatusUnprocessableEntity "invalid zipcode".
Proof.
  assert (H : JObj [("zip", JStr "29902555")] = JNull \/
   (exists fs, JObj [("zip", JStr "29902555")] = JObj fs /\
      Forall (fun kv => key_matches (fst kv) "cep" = false \/ snd kv = JNull) fs)).
  { right; eexists; split; [reflexivity|]. repeat constructor. }
  split; [exact H|].
  destruct (missing_cep_unprocessable env_test (world_of linhares 0%float) ""
              (JObj [("zip", JStr "29902555")]) H) as (_ & _ & H3 & _).
  rewrite H3; reflexivity.
Defined.

Ltac trace_cases :=
  repeat match goal with
  | |- context [match ?x with _ => _ end] => destruct x
  | |- context [if ?b then _ else _] => destruct b
  end; cbn [fst snd]; intros; try discriminate; reflexivity.

Lemma city_ok_trace_B env world ws cep city :
  fst (Services.GetCityByCEP env world ws cep []) = Ok city ->
  snd (Services.GetCityByCEP env world ws cep []) =
    [SpanStart "get-city-by-cep"; HttpGet (Services.viaCEPURL cep)].
Proof. unfold Services.GetCityByCEP; cbv [bind emit ret]. trace_cases. Qed.

Lemma city_ok_trace_M env world cep city :
  fst (MainB.getCityByCEP env world cep []) = Ok city ->
  snd (MainB.getCityByCEP env world cep []) =
    [SpanStart "get-city-by-cep"; HttpGet (Services.viaCEPURL cep)].
Proof. unfold MainB.getCityByCEP; cbv [bind emit ret]. trace_cases. Qed.

Lemma temp_ok_trace_B env world city t :
  fst (Services.GetTemperature env world (Services.NewWeatherService env) city []) = Ok t ->
  snd (Services.GetTemperature env world (Services.NewWeatherService env) city []) =
    if String.eqb (TEST_MODE env) "true" then [SpanStart "get-temperature"]
    else [SpanStart "get-temperature";
          HttpGet (Services.weatherAPIURL (WEATHER_API_KEY env)
                     (removeAccents (range_order world) city))].
Proof.
  unfold Services.GetTemperature, Services.NewWeatherService; cbv [bind emit ret].
  cbn [Services.testMode].
  destruct (String.eqb (TEST_MODE env) "true"); [intros; reflexivity|].
  trace_cases.
Qed.

Lemma temp_ok_trace_M env world city t :
  fst (MainB.getTemperature env world city []) = Ok t ->
  snd (MainB.getTemperature env world city []) =
    if String.eqb (TEST_MODE env) "true" then [SpanStart "get-temperature"]
    else [SpanStart "get-temperature";
          HttpGet (Services.weatherAPIURL (WEATHER_API_KEY env)
                     (removeAccents (range_order world) city))].
Proof.
  unfold MainB.getTemperature, MainB.testMode; cbv [bind emit ret].
  destruct (String.eqb (TEST_MODE env) "true"); [intros; reflexivity|].
  trace_cases.
Qed.

(** A success response of either Orchestrator comes from exactly these
    outbound calls, in this order: one GET of the City Resolver for the
    CEP, then (outside test mode) one GET of the Temperature Provider for
    the accent-stripped city of the response; in test mode the provider is
    not called. *)
Theorem success_outbound_calls (env : Config) (world : World) (doc : jvalue)
    (cep : string) (w : WeatherResponse) :
  decode_CEPRequest doc = Ok cep ->
  Permutation (range_order world) replacements ->
  (fst (HandlersB.serve env world (post doc)) = mkResponse StatusOK (Json w) ->
   snd (HandlersB.serve env world (post doc)) = app
     [SpanStart "handle-weather-request"; SpanStart "get-city-by-cep";
      HttpGet ("https://viacep.com.br/ws/" ++ cep ++ "/json/"); SpanStart "get-temperature"]
     (if String.eqb (TEST_MODE env) "true" then []
      else [HttpGet ("http://api.weatherapi.com/v1/current.json?key=" ++ WEATHER_API_KEY env ++
                     "&q=" ++ removeAccents replacements (City w) ++ "&aqi=no")])) /\
  (fst (MainB.serve env world (post doc)) = mkResponse StatusOK (Json w) ->
   snd (MainB.serve env world (post doc)) = app
     [SpanStart "handle-weather-request"; SpanStart "get-city-by-cep";
      HttpGet ("https://viacep.com.br/ws/" ++ cep ++ "/json/"); SpanStart "get-temperature"]
     (if String.eqb (TEST_MODE env) "true" then []
      else [HttpGet ("http://api.weatherapi.com/v1/current.json?key=" ++ WEATHER_API_KEY env ++
                     "&q=" ++ removeAccents replacements (City w) ++ "&aqi=no")])).
Proof.
  intros Hdec HP.
  assert (Hq : forall c, removeAccents (range_order world) c = removeAccents replacements c)
    by (intros c; rewrite !removeAccents_any_order by (assumption || apply Permutation_refl);
        reflexivity).
  split.
  - unfold HandlersB.serve, run, HandlersB.HandleWeatherRequest, post.
    cbv [bind emit ret]; cbn [Method Body String.eqb Ascii.eqb Bool.eqb negb app].
    rewrite Hdec.
    destruct (validCEP_MatchString cep); cbn [negb]; [|discriminate].
    step_into_bind E1.
    rewrite GetCityByCEP_appends in E1; injection E1 as E1 E1t.
    destruct a as [cidade|]; [|discriminate].
    step_into_bind E2.
    rewrite GetTemperature_appends in E2; injection E2 as E2 E2t.
    destruct a as [tempC|]; [|discriminate].
    intros H; injection H as <-; cbn [snd City].
    subst t t0.
    rewrite (city_ok_trace_B _ _ _ _ _ E1), (temp_ok_trace_B _ _ _ _ E2), Hq.
    destruct (String.eqb (TEST_MODE env) "true"); reflexivity.
  - unfold MainB.serve, run, MainB.handleWeatherRequest, post.
    cbv [bind emit ret]; cbn [Method Body String.eqb Ascii.eqb Bool.eqb negb app].
    rewrite Hdec.
    destruct (validCEP_MatchString cep); cbn [negb]; [|discriminate].
    step_into_bind E1.
    rewrite getCityByCEP_appends in E1; injection E1 as E1 E1t.
    destruct a as [cidade|]; [|discriminate].
    step_into_bind E2.
    rewrite getTemperature_appends in E2; injection E2 as E2 E2t.
    destruct a as [tempC|]; [|discriminate].
    intros H; injection H as <-; cbn [snd City].
    subst t t0.
    rewrite (city_ok_trace_M _ _ _ _ E1), (temp_ok_trace_M _ _ _ _ E2), Hq.
    destruct (String.eqb (TEST_MODE env) "true"); reflexivity.
Qed.

#[warnings="-inexact-float"]
Lemma success_outbound_calls_witness :
  decode_CEPRequest (cep_doc "29902555") = Ok "29902555" /\
  Permutation (range_order (world_of linhares 10%float)) replacements /\
  snd (HandlersB.serve env_live (world_of linhares 10%float) (post (cep_doc "29902555"))) = app
    [SpanStart "handle-weather-request"; SpanStart "get-city-by-cep";
     HttpGet ("https://viacep.com.br/ws/" ++ "29902555" ++ "/json/"); SpanStart "get-temperature"]
    (if String.eqb (TEST_MODE env_live) "true" then []
     else [HttpGet ("http://api.weatherapi.com/v1/current.json?key=" ++ WEATHER_API_KEY env_live ++
                    "&q=" ++ removeAccents replacements "Linhares" ++ "&aqi=no")]).
Proof.
  split; [reflexivity|split; [apply Permutation_refl|]].
  exact (proj1 (success_outbound_calls env_live (world_of linhares 10%float)
                  (cep_doc "29902555") "29902555"
                  {| City := "Linhares"; TempC := 10; TempF := 50; TempK := 283 |}
                  eq_refl (Permutation_refl _)) ltac:(vm_compute; reflexivity)).
Defined.





(** The monolithic pair (service-a's main.go in front of service-b's
    main.go) is transparent: for a valid CEP the user gets exactly the
    status and body the monolithic Orchestrator answers. *)
Theorem monolithic_pipeline (env : Config) (world : World) (doc : jvalue) (cep : string) :
  decode_CEPRequest doc = Ok cep ->
  validCEP_MatchString cep = true ->
  fst (MainA.serve (connect (MainB.serve env world) world) (post doc)) =
  fst (MainB.serve env world (service_b_request cep)).
Proof.
  intros Hdec Hval.
  unfold MainA.serve, MainA.handleRequest, MainA.sendRequestToServiceB, run, post.
  cbv [bind emit ret]; cbn [Method Body String.eqb Ascii.eqb Bool.eqb negb app].
  rewrite Hdec, Hval; cbn [negb].
  replace (NewRequest_ok MainA.serviceBURL) with true by (vm_compute; reflexivity).
  cbn [negb connect service_b].
  destruct (fst (MainB.serve env world (service_b_request cep))) as [code bd]; reflexivity.
Qed.

Lemma monolithic_pipeline_witness :
  decode_CEPRequest (cep_doc "29902555") = Ok "29902555" /\
  validCEP_MatchString "29902555" = true /\
  fst (MainA.serve (connect (MainB.serve env_test (world_of linhares_erro 0%float)) (world_of linhares_erro 0%float))
         (post (cep_doc "29902555"))) =
  fst (MainB.serve env_test (world_of linhares_erro 0%float) (service_b_request "29902555")).
Proof.
  split; [reflexivity|split; [reflexivity|]].
  exact (monolithic_pipeline env_test (world_of linhares_erro 0%float) (cep_doc "29902555")
           "29902555" eq_refl eq_refl).
Defined.

End HandlerExtra.
